(** * A shallow embedding of the notebooks' code cells

    The repository holds Jupyter notebooks that drive a managed machine
    learning platform.  Every code cell the theorems below talk about is
    embedded as a function of this file: the cell's variables, its standard
    output and the calls it issues are an explicit state, a raised exception
    is a value, and what the platform or a library answers is an input of
    the cell.  Numbers are Python's: [int] is [Z], a pandas [int64] is [Z]
    with its wrap-around, [float] is IEEE binary64 as specified by the
    standard library's [SpecFloat]. *)

From stdpp Require Import gmap strings list fin_maps.
From Stdlib Require Import ZArith Lia SpecFloat.

#[local] Set Warnings "-register-all,-clear-no-such-hyp".
#[local] Open Scope string_scope.
#[local] Open Scope Z_scope.
#[local] Open Scope list_scope.

(** ** Python exceptions and cells

    [KeyErrorNotInIndex missing] is the [KeyError] of a selection
    [df[[...]]] of several columns, whose message lists the labels
    [missing] that the frame lacks, as in ["['Age'] not in index"]. *)

Inductive exn :=
| KeyError (key : string)
| KeyErrorNotInIndex (missing : list string)
| IndexError
| TypeError
| ValueError (msg : string)
| OverflowError
| ZeroDivisionError
| JSONDecodeError
| HTTPError (code : Z) (info body : string)
| URLError
| ComputeTargetException
| NameError (name : string)
| SdkError (msg : string).

Inductive result (A : Type) :=
| Ok (a : A)
| Raise (e : exn).
Arguments Ok {A} a.
Arguments Raise {A} e.

(** A cell is a computation over the notebook state [S]: it ends with a
    value or with an uncaught exception, and the state it has reached stays
    as it is in both cases. *)
Definition cell (S A : Type) : Type := S -> result A * S.

Definition ret {S A} (a : A) : cell S A := fun s => (Ok a, s).
Definition raise {S A} (e : exn) : cell S A := fun s => (Raise e, s).
Definition bind {S A B} (c : cell S A) (k : A -> cell S B) : cell S B :=
  fun s => match c s with
           | (Ok a, s') => k a s'
           | (Raise e, s') => (Raise e, s')
           end.
Definition get {S} : cell S S := fun s => (Ok s, s).
Definition modify {S} (f : S -> S) : cell S unit := fun s => (Ok tt, f s).
Definition lift {S A} (r : result A) : cell S A := fun s => (r, s).

(** [try: body except E: handler], where [catches e] says whether [e] is an
    instance of [E]. *)
Definition try_except {S A} (body : cell S A) (catches : exn -> bool)
    (handler : exn -> cell S A) : cell S A :=
  fun s => match body s with
           | (Ok a, s') => (Ok a, s')
           | (Raise e, s') => if catches e then handler e s' else (Raise e, s')
           end.

Notation "'let!' x ':=' c 'in' k" := (bind c (fun x => k))
  (at level 10, x name, c at level 100, k at level 200).
Notation "c '>>!' k" := (bind c (fun _ => k))
  (at level 100, k at level 200, right associativity).

(** [for x in xs: body x] *)
Fixpoint for_each {S A} (xs : list A) (body : A -> cell S unit) : cell S unit :=
  match xs with
  | [] => ret tt
  | x :: xs' => body x >>! for_each xs' body
  end.

(** ** IEEE binary64, Python's [float] and numpy's [float64] *)

Module Float64.

Definition prec : Z := 53.
Definition emax : Z := 1024.

Definition of_Z (z : Z) : spec_float := binary_normalize prec emax z 0 false.
Definition mul : spec_float -> spec_float -> spec_float := SFmul prec emax.
Definition add : spec_float -> spec_float -> spec_float := SFadd prec emax.
Definition div : spec_float -> spec_float -> spec_float := SFdiv prec emax.
Definition eqb : spec_float -> spec_float -> bool := SFeqb.

(** The value of a decimal literal [n / d] with [n] and [d] below [2^53]:
    the division rounds once, to the nearest float, as the parser does. *)
Definition literal (n d : Z) : spec_float := div (of_Z n) (of_Z d).

Definition is_finite (x : spec_float) : bool :=
  match x with
  | S754_zero _ | S754_finite _ _ _ => true
  | _ => false
  end.

(** [m / 2^n] rounded to the nearest integer, ties to the even one. *)
Definition round_half_even (m n : Z) : Z :=
  let q := Z.shiftr m n in
  let r := Z.land m (Z.ones n) in
  let half := Z.shiftl 1 (n - 1) in
  if r <? half then q
  else if half <? r then q + 1
  else if Z.even q then q else q + 1.

(** [numpy.rint], which [round(series)] applies to a float column. *)
Definition rint (x : spec_float) : spec_float :=
  match x with
  | S754_finite s m e =>
      if 0 <=? e then x
      else let q := round_half_even (Zpos m) (- e) in
           if q =? 0 then S754_zero s
           else binary_normalize prec emax (cond_Zopp s q) 0 s
  | _ => x
  end.

(** The integer part of a finite float (the C cast rounds toward zero). *)
Definition trunc (x : spec_float) : option Z :=
  match x with
  | S754_zero _ => Some 0
  | S754_finite s m e =>
      Some (cond_Zopp s (if 0 <=? e then Z.shiftl (Zpos m) e
                         else Z.shiftr (Zpos m) (- e)))
  | _ => None
  end.

(** [math.ceil] of a finite float *)
Definition ceil (x : spec_float) : option Z :=
  match x with
  | S754_zero _ => Some 0
  | S754_finite s m e =>
      if 0 <=? e then Some (cond_Zopp s (Z.shiftl (Zpos m) e))
      else let q := Z.shiftr (Zpos m) (- e) in
           let r := Z.land (Zpos m) (Z.ones (- e)) in
           Some (if s then - q else if r =? 0 then q else q + 1)
  | _ => None
  end.

End Float64.

(** ** pandas columns and frames *)

Module Pandas.

Definition min_int64 : Z := - 2 ^ 63.
Definition max_int64 : Z := 2 ^ 63 - 1.
Definition wrap64 (z : Z) : Z := (z + 2 ^ 63) mod 2 ^ 64 - 2 ^ 63.

(** A column is an [int64] or a [float64] array. *)
Inductive column :=
| ColInt (xs : list Z)
| ColFloat (xs : list spec_float).

(** A frame maps column names to columns, [df[name]] raising [KeyError]. *)
Abbreviation frame := (gmap string column).

Definition getitem (df : frame) (name : string) : result column :=
  match df !! name with
  | Some c => Ok c
  | None => Raise (KeyError name)
  end.

Definition column_length (c : column) : nat :=
  match c with
  | ColInt xs => length xs
  | ColFloat xs => length xs
  end.

(** The number of rows of a frame: its columns have one length. *)
Definition nrows (df : frame) : nat :=
  map_fold (fun _ c n => Nat.max (column_length c) n) 0%nat df.

(** The table that [df.to_csv(path)] writes with its default [index=True]:
    the row numbers [0], [1], ..., which [read_csv] gave the frame as its
    index, in a first column whose name is empty, then the columns of the
    frame. *)
Definition csv_of (df : frame) : frame :=
  <["" := ColInt (map Z.of_nat (seq 0 (nrows df)))]> df.

(** [col + n] for an [int] literal [n] *)
Definition add_int (c : column) (n : Z) : column :=
  match c with
  | ColInt xs => ColInt (map (fun x => wrap64 (x + n)) xs)
  | ColFloat xs => ColFloat (map (fun x => Float64.add x (Float64.of_Z n)) xs)
  end.

(** [col * f] for a [float] literal [f]: an integer column is converted. *)
Definition mul_float (c : column) (f : spec_float) : column :=
  match c with
  | ColInt xs => ColFloat (map (fun x => Float64.mul (Float64.of_Z x) f) xs)
  | ColFloat xs => ColFloat (map (fun x => Float64.mul x f) xs)
  end.

(** [round(col)] *)
Definition round (c : column) : column :=
  match c with
  | ColInt xs => ColInt xs
  | ColFloat xs => ColFloat (map Float64.rint xs)
  end.

(** The cast of one float to [int64]; a value out of range becomes
    [min_int64], as the x86-64 conversion instruction leaves it. *)
Definition to_int64 (x : spec_float) : Z :=
  match Float64.trunc x with
  | Some z => if (min_int64 <=? z) && (z <=? max_int64) then z else min_int64
  | None => min_int64
  end.

(** [col.astype(int)]: pandas refuses a column with NaN or an infinity. *)
Definition astype_int (c : column) : result column :=
  match c with
  | ColInt xs => Ok (ColInt xs)
  | ColFloat xs =>
      if forallb Float64.is_finite xs then Ok (ColInt (map to_int64 xs))
      else Raise (ValueError "Cannot convert non-finite values (NA or inf) to integer")
  end.

End Pandas.

(** ** The simulated-drift generator of the drift-monitoring notebook *)

Module Drift.
Import Pandas.

(** ['data/diabetes_{}.csv'.format(date.strftime("%Y-%m-%d"))], the date
    kept as its day number: [strftime] is one-to-one on dates. *)
Inductive path := DiabetesCsv (date : Z).

#[global] Instance path_eq_dec : EqDecision path.
Proof. solve_decision. Defined.
#[global] Instance path_countable : Countable path :=
  inj_countable' (fun p => match p with DiabetesCsv d => d end) DiabetesCsv
    (fun p => match p with DiabetesCsv d => eq_refl end).

(** The variables of the cell, the files on disk, and how often
    [dt.date.today()] has been asked. *)
Record state := {
  data : frame;
  file_paths : list path;
  disk : gmap path frame;
  clock_reads : nat
}.

Definition set_column (name : string) (c : column) : cell state unit :=
  modify (fun st => {| data := <[name := c]> (data st);
                       file_paths := file_paths st;
                       disk := disk st;
                       clock_reads := clock_reads st |}).

Definition column_of (name : string) : cell state column :=
  let! st := get in lift (getitem (data st) name).

(** [dt.date.today()], answered by the clock of the machine *)
Definition today (clock : nat -> Z) : cell state Z :=
  let! st := get in
  modify (fun st => {| data := data st;
                       file_paths := file_paths st;
                       disk := disk st;
                       clock_reads := S (clock_reads st) |}) >>!
  ret (clock (clock_reads st)).

(** [data.to_csv(file_path)] writes what the frame holds now, the row
    numbers first. *)
Definition to_csv (file_path : path) : cell state unit :=
  modify (fun st => {| data := data st;
                       file_paths := file_paths st;
                       disk := <[file_path := csv_of (data st)]> (disk st);
                       clock_reads := clock_reads st |}).

Definition append_path (file_path : path) : cell state unit :=
  modify (fun st => {| data := data st;
                       file_paths := file_paths st ++ [file_path];
                       disk := disk st;
                       clock_reads := clock_reads st |}).

Definition c1_2 : spec_float := Float64.literal 12 10.
Definition c1_1 : spec_float := Float64.literal 11 10.

(** The three assignments under [# Modify data to ceate some drift] *)
Definition modify_data : cell state unit :=
  let! pregnancies := column_of "Pregnancies" in
  set_column "Pregnancies" (add_int pregnancies 1) >>!
  let! age := column_of "Age" in
  let! age' := lift (astype_int (round (mul_float age c1_2))) in
  set_column "Age" age' >>!
  let! bmi := column_of "BMI" in
  set_column "BMI" (mul_float bmi c1_1).

(** [reversed(range(6))] *)
Definition weeknos : list Z := rev (map Z.of_nat (seq 0 6)).

Definition loop_body (clock : nat -> Z) (weekno : Z) : cell state unit :=
  let! now := today clock in
  let data_date := now - 7 * weekno in
  modify_data >>!
  let file_path := DiabetesCsv data_date in
  to_csv file_path >>!
  append_path file_path.

(** The cell from [pd.read_csv('data/diabetes2.csv')], whose result is
    [diabetes2], to the end of the loop. *)
Definition generate (clock : nat -> Z) (diabetes2 : frame) (files : gmap path frame)
    : result unit * state :=
  for_each weeknos (loop_body clock)
    {| data := diabetes2; file_paths := []; disk := files; clock_reads := 0 |}.

(** *** What one pass of the loop does to well-formed patient data *)

Definition preg_step (p : Z) : Z := wrap64 (p + 1).
Definition age_float (a : Z) : spec_float :=
  Float64.rint (Float64.mul (Float64.of_Z a) c1_2).
Definition age_step (a : Z) : Z := to_int64 (age_float a).
Definition bmi_step (b : spec_float) : spec_float := Float64.mul b c1_1.

(** The frame has the three columns the loop touches, with the types
    [read_csv] gives them. *)
Definition shaped (df : frame) (ps ages : list Z) (bs : list spec_float) : Prop :=
  df !! "Pregnancies" = Some (ColInt ps) /\
  df !! "Age" = Some (ColInt ages) /\
  df !! "BMI" = Some (ColFloat bs).

Definition drifted (df : frame) : frame :=
  match df !! "Pregnancies", df !! "Age", df !! "BMI" with
  | Some (ColInt ps), Some (ColInt ages), Some (ColFloat bs) =>
      <["BMI" := ColFloat (map bmi_step bs)]>
        (<["Age" := ColInt (map age_step ages)]>
           (<["Pregnancies" := ColInt (map preg_step ps)]> df))
  | _, _, _ => df
  end.



(** Two patients, for examples. *)
Definition sample_diabetes2 : frame :=
  <["PatientID" := ColInt [1354778; 1147438]]>
    (<["Pregnancies" := ColInt [0; 8]]>
       (<["Age" := ColInt [21; 50]]>
          (<["BMI" := ColFloat [Float64.literal 2351 100; Float64.literal 4350 100]]> ∅))).

(** The table the proofs check the float arithmetic of [Age] against. *)
Definition age_row_ok (a : Z) : bool :=
  Float64.is_finite (age_float a) && (age_step a =? (12 * a + 5) / 10).

End Drift.

(** ** Python values, as [json] reads and writes them *)

Module Py.

Inductive pyval :=
| PyNone
| PyBool (b : bool)
| PyInt (z : Z)
| PyFloat (f : spec_float)
| PyStr (s : string)
| PyList (items : list pyval)
| PyDict (items : list (string * pyval)).

(** [v == n] for an [int] literal [n]: numbers compare by value, whatever
    their type, [bool] is a subtype of [int], and a value that is not a
    number is unequal to every number. *)
Definition eq_int (v : pyval) (n : Z) : bool :=
  match v with
  | PyBool b => (if b then 1 else 0) =? n
  | PyInt z => z =? n
  | PyFloat f => Float64.eqb f (Float64.of_Z n)
  | _ => false
  end.

Fixpoint dict_get (items : list (string * pyval)) (key : string) : option pyval :=
  match items with
  | [] => None
  | (k, v) :: rest => if String.eqb k key then Some v else dict_get rest key
  end.

(** [v[key]] for a [str] literal [key] *)
Definition getitem_str (v : pyval) (key : string) : result pyval :=
  match v with
  | PyDict items =>
      match dict_get items key with
      | Some x => Ok x
      | None => Raise (KeyError key)
      end
  | _ => Raise TypeError
  end.

(** A [str] is kept as its UTF-8 encoding.  The number of bytes of the
    character that starts with the byte [c]: one for ASCII, and two, three
    or four after a lead byte from [0xC0], [0xE0] or [0xF0] on. *)
Definition utf8_width (c : Ascii.ascii) : nat :=
  let b := Ascii.N_of_ascii c in
  if (b <? 192)%N then 1%nat
  else if (b <? 224)%N then 2%nat
  else if (b <? 240)%N then 3%nat
  else 4%nat.

(** [s[0]] of a [str]: its first character, not its first byte. *)
Definition first_character (s : string) : option string :=
  match s with
  | EmptyString => None
  | String c _ => Some (String.substring 0 (utf8_width c) s)
  end.

(** [v[0]] *)
Definition getitem_0 (v : pyval) : result pyval :=
  match v with
  | PyList (x :: _) => Ok x
  | PyList [] => Raise IndexError
  | PyStr s =>
      match first_character s with
      | Some c => Ok (PyStr c)
      | None => Raise IndexError
      end
  | PyDict _ => Raise (KeyError "0")
  | _ => Raise TypeError
  end.

End Py.

(** ** The two scoring cells *)

Module Scoring.
Import Py.

Record request := {
  url : string;
  body : string;
  headers : list (string * string)
}.

Record response := {
  status_code : Z;
  text : string
}.

(** One argument of a [print] call. *)
Inductive shown :=
| ShowVal (v : pyval)
| ShowResponse (r : response)
| ShowExn (e : exn)
| ShowFormat (template : string) (args : list pyval).

(** The requests sent so far and the lines printed so far. *)
Record state := {
  sent : list request;
  stdout : list (list shown)
}.

Definition initial : state := {| sent := []; stdout := [] |}.

Definition print (args : list shown) : cell state unit :=
  modify (fun st => {| sent := sent st; stdout := stdout st ++ [args] |}).

(** Sending [r]; the answer of the service is an input of the cell. *)
Definition send {A} (r : request) (answer : result A) : cell state A :=
  modify (fun st => {| sent := sent st ++ [r]; stdout := stdout st |}) >>!
  lift answer.

Section Json.

(** [json.dumps] and [json.loads] *)
Variable dumps : pyval -> string.
Variable loads : string -> result pyval.

(** *** Get Diabetes Prediction from Automated ML Endpoint *)

Definition x : pyval :=
  PyList [PyDict [("PatientID", PyInt 1);
                  ("Pregnancies", PyInt 4);
                  ("PlasmaGlucose", PyFloat (Float64.literal 1200 10));
                  ("DiastolicBloodPressure", PyFloat (Float64.literal 906 10));
                  ("TricepsThickness", PyFloat (Float64.literal 200 10));
                  ("SerumInsulin", PyFloat (Float64.literal 230 10));
                  ("BMI", PyFloat (Float64.literal 2351 100));
                  ("DiabetesPedigree", PyFloat (Float64.literal 21 100));
                  ("Age", PyFloat (Float64.literal 210 10))]].

Definition input_json : string := dumps (PyDict [("data", x)]).

Definition bearer_headers (key : string) : list (string * string) :=
  [("Content-Type", "application/json"); ("Authorization", "Bearer " +:+ key)].

Definition score_request (endpoint key : string) : request :=
  {| url := endpoint; body := input_json; headers := bearer_headers key |}.

(** [json.loads(response.json())]: the body is read as JSON, and what it
    holds, which has to be a string, is read as JSON again. *)
Definition loads_twice (text : string) : result pyval :=
  match loads text with
  | Ok (PyStr s) => loads s
  | Ok _ => Raise TypeError
  | Raise e => Raise e
  end.

(** [y["result"][0]] *)
Definition first_result (y : pyval) : result pyval :=
  match getitem_str y "result" with
  | Ok r => getitem_0 r
  | Raise e => Raise e
  end.

Definition auto_predict (endpoint key : string) (answer : result response)
    : cell state unit :=
  let! response := send (score_request endpoint key) answer in
  if status_code response =? 200 then
    let! y := lift (loads_twice (text response)) in
    let! first := lift (first_result y) in
    print [ShowVal (PyStr "Prediction:"); ShowVal first] >>!
    let! first' := lift (first_result y) in
    if eq_int first' 1 then print [ShowVal (PyStr "Diabetic")]
    else print [ShowVal (PyStr "Not Diabetic")]
  else
    print [ShowResponse response].

(** *** Get Diabetes Predictions from a Designer Pipeline *)

Definition data : pyval :=
  PyDict [("Inputs",
           PyDict [("WebServiceInput0",
                    PyList [PyDict [("PatientID", PyInt 1882185);
                                    ("Pregnancies", PyInt 9);
                                    ("PlasmaGlucose", PyInt 104);
                                    ("DiastolicBloodPressure", PyInt 51);
                                    ("TricepsThickness", PyInt 7);
                                    ("SerumInsulin", PyInt 24);
                                    ("BMI", PyFloat (Float64.literal 2736983156 100000000));
                                    ("DiabetesPedigree",
                                     PyFloat (Float64.literal 13504720469999998 10000000000000000));
                                    ("Age", PyInt 43)]])]);
          ("GlobalParameters", PyDict [])].

(** ['{:.2f}'.format(v)] takes a number; an [int] is converted to a
    [float] first, which raises [OverflowError] when it rounds to a value
    beyond the largest float. *)
Definition format_2f (v : pyval) : result unit :=
  match v with
  | PyBool _ | PyFloat _ => Ok tt
  | PyInt z => if Float64.is_finite (Float64.of_Z z) then Ok tt else Raise OverflowError
  | PyStr _ => Raise (ValueError "Unknown format code 'f' for object of type 'str'")
  | _ => Raise TypeError
  end.

Definition designer_request (endpoint key : string) : request :=
  {| url := endpoint; body := dumps data; headers := bearer_headers key |}.

Definition is_HTTPError (e : exn) : bool :=
  match e with HTTPError _ _ _ => true | _ => false end.

(** The body of [except urllib.error.HTTPError as error] *)
Definition on_http_error (error : exn) : cell state unit :=
  match error with
  | HTTPError code info body =>
      print [ShowFormat "The request failed with status code: {}" [PyInt code]] >>!
      print [ShowVal (PyStr info)] >>!
      let! parsed := lift (loads body) in
      print [ShowVal parsed]
  | _ => ret tt
  end.

Definition designer_predict (endpoint key : string) (answer : result string)
    : cell state unit :=
  try_except
    (let! result := send (designer_request endpoint key) answer in
     let! json_result := lift (loads result) in
     let! results := lift (getitem_str json_result "Results") in
     let! outputs := lift (getitem_str results "WebServiceOutput0") in
     let! output := lift (getitem_0 outputs) in
     let! patient := lift (getitem_str output "PatientID") in
     let! prediction := lift (getitem_str output "DiabetesPrediction") in
     let! probability := lift (getitem_str output "Probability") in
     lift (format_2f probability) >>!
     print [ShowFormat "Patient: {}\nPrediction: {}\nProbability: {:.2f}"
              [patient; prediction; probability]])
    is_HTTPError
    on_http_error.

End Json.

(** A service that answers [{"result": [1]}], packed in a JSON string, for
    examples: the two texts stand for the body and for the string in it. *)
Definition sample_loads (s : string) : result pyval :=
  if String.eqb s "body" then Ok (PyStr "inner")
  else if String.eqb s "inner" then Ok (PyDict [("result", PyList [PyInt 1])])
  else Raise JSONDecodeError.

Definition sample_response : response := {| status_code := 200; text := "body" |}.

End Scoring.

(** ** The compute-target cell and the dataset-registration cell *)

Module Compute.

(** The calls a cell issues to the platform, in the order it issues them. *)
Inductive sdk_call :=
| GetComputeTarget (name : string)
| ProvisioningConfiguration (vm_size : string) (max_nodes : Z)
| CreateComputeTarget (name : string)
| WaitForCompletion (name : string)
| RegisterDataset (name : string).

(** What the platform answers to each of them. *)
Record platform := {
  existing_target : result string;
  provisioning_configuration : result string;
  created_target : result string;
  provisioned : result unit;
  registered_dataset : result string
}.

Record state := {
  training_cluster : option string;
  compute_config : option string;
  tab_data_set : option string;
  calls : list sdk_call;
  stdout : list (list Scoring.shown)
}.

Definition initial : state :=
  {| training_cluster := None; compute_config := None; tab_data_set := None;
     calls := []; stdout := [] |}.

Definition print (args : list Scoring.shown) : cell state unit :=
  modify (fun st => {| training_cluster := training_cluster st;
                       compute_config := compute_config st;
                       tab_data_set := tab_data_set st;
                       calls := calls st;
                       stdout := stdout st ++ [args] |}).

Definition call {A} (c : sdk_call) (answer : result A) : cell state A :=
  modify (fun st => {| training_cluster := training_cluster st;
                       compute_config := compute_config st;
                       tab_data_set := tab_data_set st;
                       calls := calls st ++ [c];
                       stdout := stdout st |}) >>!
  lift answer.

Definition set_training_cluster (c : string) : cell state unit :=
  modify (fun st => {| training_cluster := Some c;
                       compute_config := compute_config st;
                       tab_data_set := tab_data_set st;
                       calls := calls st;
                       stdout := stdout st |}).

Definition set_compute_config (c : string) : cell state unit :=
  modify (fun st => {| training_cluster := training_cluster st;
                       compute_config := Some c;
                       tab_data_set := tab_data_set st;
                       calls := calls st;
                       stdout := stdout st |}).

Definition set_tab_data_set (d : string) : cell state unit :=
  modify (fun st => {| training_cluster := training_cluster st;
                       compute_config := compute_config st;
                       tab_data_set := Some d;
                       calls := calls st;
                       stdout := stdout st |}).

Definition cluster_name : string := "dp100cluster".

Definition is_ComputeTargetException (e : exn) : bool :=
  match e with ComputeTargetException => true | _ => false end.

(** [except Exception] catches every exception of this model:
    [KeyboardInterrupt] and [SystemExit], which it lets pass, are not among
    them. *)
Definition is_Exception (e : exn) : bool := true.

(** [except Exception as ex: print(ex)] *)
Definition print_exception (ex : exn) : cell state unit :=
  print [Scoring.ShowExn ex].

(** The body of [except ComputeTargetException], under the comment
    [# If it doesn't already exist, create it]. *)
Definition on_compute_target_exception (p : platform) (e : exn) : cell state unit :=
  try_except
    (let! config := call (ProvisioningConfiguration "STANDARD_DS11_V2" 2)
                         (provisioning_configuration p) in
     set_compute_config config >>!
     let! cluster := call (CreateComputeTarget cluster_name) (created_target p) in
     set_training_cluster cluster >>!
     call (WaitForCompletion cluster_name) (provisioned p))
    is_Exception
    print_exception.

Definition compute_target_cell (p : platform) : cell state unit :=
  try_except
    (let! cluster := call (GetComputeTarget cluster_name) (existing_target p) in
     set_training_cluster cluster >>!
     print [Scoring.ShowVal (Py.PyStr "Found existing cluster, use it.")])
    is_ComputeTargetException
    (on_compute_target_exception p).

(** The [try] of the dataset cells, where [tab_data_set] is registered. *)
Definition register_dataset (p : platform) : cell state unit :=
  try_except
    (let! registered := call (RegisterDataset "diabetes dataset") (registered_dataset p) in
     set_tab_data_set registered >>!
     print [Scoring.ShowVal (Py.PyStr "Dataset registered.")])
    is_Exception
    print_exception.


(** A workspace without the cluster, where provisioning succeeds. *)
Definition absent_cluster : platform :=
  {| existing_target := Raise ComputeTargetException;
     provisioning_configuration := Ok "STANDARD_DS11_V2, 2 nodes";
     created_target := Ok "dp100cluster";
     provisioned := Ok tt;
     registered_dataset := Ok "diabetes dataset" |}.


End Compute.

(** ** The training scripts of the Train Models notebook *)

Module Training.
Import Pandas.

(** An entry of a numpy array. *)
Inductive scalar :=
| SInt (z : Z)
| SFloat (f : spec_float).

Definition to_float (x : scalar) : spec_float :=
  match x with
  | SInt z => Float64.of_Z z
  | SFloat f => f
  end.

(** [a == b] on two entries: an integer meets a float as a float. *)
Definition scalar_eqb (a b : scalar) : bool :=
  match a, b with
  | SInt x, SInt y => x =? y
  | _, _ => Float64.eqb (to_float a) (to_float b)
  end.

Definition scalars (c : column) : list scalar :=
  match c with
  | ColInt xs => map SInt xs
  | ColFloat xs => map SFloat xs
  end.

Definition is_float_column (c : column) : bool :=
  match c with ColFloat _ => true | ColInt _ => false end.

Definition rows_count (cols : list column) : nat :=
  match cols with
  | [] => 0%nat
  | c :: _ => length (scalars c)
  end.

(** [df[names]]: the named columns, in the order of [names]; when the
    frame lacks some of them, the [KeyError] lists all that it lacks. *)
Definition select (df : frame) (names : list string) : result (list column) :=
  match filter (fun name => df !! name = None) names with
  | [] => Ok (omap (fun name => df !! name) names)
  | missing => Raise (KeyErrorNotInIndex missing)
  end.

(** [.values] of a selection: one row per record, the entries of integer
    columns converted to floats as soon as one column holds floats. *)
Definition values (cols : list column) : list (list scalar) :=
  let upcast := existsb is_float_column cols in
  let entry (c : column) (i : nat) : scalar :=
    let x := nth i (scalars c) (SInt 0) in
    if upcast then SFloat (to_float x) else x in
  map (fun i => map (fun c => entry c i) cols) (seq 0 (rows_count cols)).

Definition feature_names : list string :=
  ["Pregnancies"; "PlasmaGlucose"; "DiastolicBloodPressure"; "TricepsThickness";
   "SerumInsulin"; "BMI"; "DiabetesPedigree"; "Age"].

Definition label_name : string := "Diabetic".

(** [X, y = diabetes[[...]].values, diabetes['Diabetic'].values] *)
Definition features_and_labels (diabetes : frame)
    : result (list (list scalar) * list scalar) :=
  match select diabetes feature_names with
  | Ok cols =>
      match getitem diabetes label_name with
      | Ok label => Ok (values cols, scalars label)
      | Raise e => Raise e
      end
  | Raise e => Raise e
  end.

(** [a[indices]] on the first axis *)
Fixpoint take_rows {A} (a : list A) (indices : list nat) : result (list A) :=
  match indices with
  | [] => Ok []
  | i :: rest =>
      match a !! i with
      | Some x => match take_rows a rest with
                  | Ok xs => Ok (x :: xs)
                  | Raise e => Raise e
                  end
      | None => Raise IndexError
      end
  end.

(** [np.average] of a boolean array *)
Definition np_average (bs : list bool) : spec_float :=
  Float64.div (Float64.of_Z (Z.of_nat (length (filter (fun b : bool => b = true) bs))))
              (Float64.of_Z (Z.of_nat (length bs))).

(** [1/reg] *)
Definition inverse (reg : spec_float) : result spec_float :=
  if Float64.eqb reg (Float64.of_Z 0) then Raise ZeroDivisionError
  else Ok (Float64.div (Float64.of_Z 1) reg).

(** The run the script logs to. *)
Record run := {
  metrics : list (string * Py.pyval);
  stdout : list (list Scoring.shown);
  outputs : list string;
  completed : bool
}.

Definition new_run : run :=
  {| metrics := []; stdout := []; outputs := []; completed := false |}.

Definition print (args : list Scoring.shown) : cell run unit :=
  modify (fun r => {| metrics := metrics r; stdout := stdout r ++ [args];
                      outputs := outputs r; completed := completed r |}).

(** [run.log(name, value)], taken to return: it records the metric. *)
Definition log (name : string) (value : Py.pyval) : cell run unit :=
  modify (fun r => {| metrics := metrics r ++ [(name, value)]; stdout := stdout r;
                      outputs := outputs r; completed := completed r |}).

(** The calls of a script that may raise, besides [fit], [1/reg] and
    [roc_auc_score], whose results say so themselves: [model.predict] and
    [model.predict_proba], which otherwise answer row by row,
    [os.makedirs], [joblib.dump] and [run.complete]. *)
Inductive call :=
| Predict
| PredictProba
| Makedirs
| Dump
| Complete.

(** A call that raises [e] when its outcome is [Some e], and returns
    otherwise. *)
Definition attempt (outcome : option exn) : cell run unit :=
  match outcome with
  | Some e => raise e
  | None => ret tt
  end.

(** [os.makedirs('outputs', exist_ok=True)] *)
Definition makedirs (outcome : option exn) : cell run unit := attempt outcome.

(** [joblib.dump(value=model, filename=...)]: the file is there once the
    call has returned. *)
Definition dump (outcome : option exn) (filename : string) : cell run unit :=
  attempt outcome >>!
  modify (fun r => {| metrics := metrics r; stdout := stdout r;
                      outputs := outputs r ++ [filename]; completed := completed r |}).

(** [run.complete()] *)
Definition complete (outcome : option exn) : cell run unit :=
  attempt outcome >>!
  modify (fun r => {| metrics := metrics r; stdout := stdout r;
                      outputs := outputs r; completed := true |}).

(** Two entries hold the same number, the indicator of a correct
    prediction as the specification words it: two integers are the same
    integer, and an integer and a float, or two floats, compare equal as
    floats. *)
Definition same_number (a b : scalar) : Prop :=
  match a, b with
  | SInt x, SInt y => x = y
  | SInt x, SFloat g => SFcompare (Float64.of_Z x) g = Some Eq
  | SFloat f, SInt y => SFcompare f (Float64.of_Z y) = Some Eq
  | SFloat f, SFloat g => SFcompare f g = Some Eq
  end.

#[global] Instance same_number_dec (a b : scalar) : Decision (same_number a b).
Proof.
  assert (forall c : option comparison, Decision (c = Some Eq)) as Hdec.
  { intros [[| |]|]; first [left; reflexivity|right; discriminate]. }
  destruct a, b; simpl; first [apply Z.eq_dec|apply Hdec].
Defined.

Definition say (text : string) : Scoring.shown := Scoring.ShowVal (Py.PyStr text).

Section Libraries.

(** numpy's random generators: [RandomState(seed)] and [rng.permutation(n)] *)
Variable rng : Type.
Variable RandomState : Z -> rng.
Variable permutation : rng -> nat -> list nat.

(** scikit-learn: a fitted model, [LogisticRegression(C, solver="liblinear").fit],
    [predict] and the second column of [predict_proba] on one row, and
    [roc_auc_score] *)
Variable model : Type.
Variable fit : spec_float -> list (list scalar) -> list scalar -> result model.
Variable predict : model -> list scalar -> scalar.
Variable predict_proba_1 : model -> list scalar -> spec_float.
Variable roc_auc_score : list scalar -> list spec_float -> result spec_float.

(** Which of the calls [model.predict], [model.predict_proba],
    [os.makedirs], [joblib.dump] and [run.complete] raise in this run, and
    what; [predict] and [predict_proba_1] above are what the first two
    answer for a row when they return. *)
Variable raises : call -> option exn.

(** scikit-learn's [check_random_state]: without a seed the generator is
    numpy's global one, with a seed it is a fresh one made from the seed. *)
Definition check_random_state (random_state : option Z) (global_rng : rng) : rng :=
  match random_state with
  | None => global_rng
  | Some seed => RandomState seed
  end.

Record split := {
  X_train : list (list scalar);
  X_test : list (list scalar);
  y_train : list scalar;
  y_test : list scalar
}.

(** scikit-learn's [train_test_split(X, y, test_size, random_state)] for a
    fraction [test_size], as its documentation and its [ShuffleSplit]
    describe it: the test rows are the first [ceil(test_size * n)] entries
    of a permutation of the row numbers, the training rows the others. *)
Definition train_test_split (X : list (list scalar)) (y : list scalar)
    (test_size : spec_float) (random_state : option Z) (global_rng : rng)
    : result split :=
  let n_samples := length X in
  if negb (length y =? n_samples)%nat then
    Raise (ValueError "Found input variables with inconsistent numbers of samples")
  else if SFleb test_size (Float64.of_Z 0) || SFleb (Float64.of_Z 1) test_size then
    Raise (ValueError "test_size should be in the (0, 1) range")
  else
    match Float64.ceil (Float64.mul test_size (Float64.of_Z (Z.of_nat n_samples))) with
    | None => Raise (ValueError "test_size")
    | Some n_test =>
        let n_test := Z.to_nat n_test in
        let n_train := (n_samples - n_test)%nat in
        if (n_train =? 0)%nat then
          Raise (ValueError "the resulting train set will be empty")
        else
          let indices := permutation (check_random_state random_state global_rng) n_samples in
          let test := take n_test indices in
          let train := take n_train (drop n_test indices) in
          match take_rows X train, take_rows X test, take_rows y train, take_rows y test with
          | Ok Xtr, Ok Xte, Ok ytr, Ok yte =>
              Ok {| X_train := Xtr; X_test := Xte; y_train := ytr; y_test := yte |}
          | _, _, _, _ => Raise IndexError
          end
    end.

(** From the regularization rate to the end of a script, which the two
    scripts spell the same way. *)
Definition train_and_log (reg : spec_float) (s : split) : cell run unit :=
  print [say "Training a logistic regression model with regularization rate of";
         Scoring.ShowVal (Py.PyFloat reg)] >>!
  log "Regularization Rate" (Py.PyFloat reg) >>!
  let! C := lift (inverse reg) in
  let! model := lift (fit C (X_train s) (y_train s)) in
  attempt (raises Predict) >>!
  let y_hat := map (predict model) (X_test s) in
  let acc := np_average (zip_with scalar_eqb y_hat (y_test s)) in
  print [say "Accuracy:"; Scoring.ShowVal (Py.PyFloat acc)] >>!
  log "Accuracy" (Py.PyFloat acc) >>!
  attempt (raises PredictProba) >>!
  let y_scores := map (predict_proba_1 model) (X_test s) in
  let! auc := lift (roc_auc_score (y_test s) y_scores) in
  print [Scoring.ShowFormat "AUC: {}" [Py.PyFloat auc]] >>!
  log "AUC" (Py.PyFloat auc) >>!
  makedirs (raises Makedirs) >>!
  dump (raises Dump) "outputs/diabetes_model.pkl" >>!
  complete (raises Complete).

(** The lines of [diabetes-training/diabetes_training.py] from
    [pd.read_csv('diabetes.csv')], whose result is [csv], to the split. *)
Definition diabetes_training_split (csv : result frame) (global_rng : rng)
    : result split :=
  match csv with
  | Ok diabetes =>
      match features_and_labels diabetes with
      | Ok (X, y) =>
          train_test_split X y (Float64.literal 30 100) (Some 0) global_rng
      | Raise e => Raise e
      end
  | Raise e => Raise e
  end.

(** [diabetes-training/diabetes_training.py] *)
Definition diabetes_training (csv : result frame) (global_rng : rng) : cell run unit :=
  print [say "Loading Data..."] >>!
  let! s := lift (diabetes_training_split csv global_rng) in
  let reg := Float64.literal 1 100 in
  train_and_log reg s.

(** The same lines of [diabetes-training-params/diabetes_training.py] *)
Definition diabetes_training_params_split (csv : result frame) (global_rng : rng)
    : result split :=
  match csv with
  | Ok diabetes =>
      match features_and_labels diabetes with
      | Ok (X, y) =>
          train_test_split X y (Float64.literal 30 100) (Some 0) global_rng
      | Raise e => Raise e
      end
  | Raise e => Raise e
  end.

(** [diabetes-training-params/diabetes_training.py]; [reg_rate] is the
    value of [--reg_rate] when the argument is given. *)
Definition diabetes_training_params (reg_rate : option spec_float)
    (csv : result frame) (global_rng : rng) : cell run unit :=
  let reg := match reg_rate with
             | Some r => r
             | None => Float64.literal 1 100
             end in
  print [say "Loading Data..."] >>!
  let! s := lift (diabetes_training_params_split csv global_rng) in
  train_and_log reg s.

(** The number of test rows whose label the model [m] predicts. *)
Definition correct_rows (m : model) (s : split) : nat :=
  length (filter (fun xy => same_number (predict m (fst xy)) (snd xy))
                 (zip (X_test s) (y_test s))).

Definition metric_names : list string := ["Regularization Rate"; "Accuracy"; "AUC"].

(** What a run [r] of a script with the rate [reg] has logged when the
    script has run to its end: the rate, the number of test rows whose
    label the fitted model predicts divided by the number of test rows,
    and the score [roc_auc_score] returned, each as a float. *)
Definition three_metrics (reg : spec_float) (csv : result frame) (global_rng : rng)
    (r : run) : Prop :=
  exists s m auc,
    diabetes_training_split csv global_rng = Ok s /\
    Float64.eqb reg (Float64.of_Z 0) = false /\
    fit (Float64.div (Float64.of_Z 1) reg) (X_train s) (y_train s) = Ok m /\
    roc_auc_score (y_test s) (map (predict_proba_1 m) (X_test s)) = Ok auc /\
    metrics r
    = [("Regularization Rate", Py.PyFloat reg);
       ("Accuracy",
        Py.PyFloat (Float64.div (Float64.of_Z (Z.of_nat (correct_rows m s)))
                                (Float64.of_Z (Z.of_nat (length (y_test s))))));
       ("AUC", Py.PyFloat auc)].

End Libraries.

(** Four patients and a library that always answers, for examples: the
    permutation is the identity, the model predicts 0 for every row. *)
Definition sample_diabetes : frame :=
  list_to_map
    [("PatientID", ColInt [1354778; 1147438; 1640031; 1883350]);
     ("Pregnancies", ColInt [0; 8; 7; 9]);
     ("PlasmaGlucose", ColInt [171; 92; 115; 103]);
     ("DiastolicBloodPressure", ColInt [80; 93; 47; 78]);
     ("TricepsThickness", ColInt [34; 47; 52; 25]);
     ("SerumInsulin", ColInt [23; 36; 35; 304]);
     ("BMI", ColFloat [Float64.literal 4350 100; Float64.literal 2157 100;
                       Float64.literal 4153 100; Float64.literal 2958 100]);
     ("DiabetesPedigree", ColFloat [Float64.literal 121 100; Float64.literal 15 100;
                                    Float64.literal 7 100; Float64.literal 128 100]);
     ("Age", ColInt [21; 23; 23; 43]);
     ("Diabetic", ColInt [0; 0; 0; 1])].

Definition sample_training (csv : result frame) : cell run unit :=
  diabetes_training unit (fun _ => tt) (fun _ n => seq 0 n) unit
    (fun _ _ _ => Ok tt) (fun _ _ => SInt 0) (fun _ _ => Float64.literal 1 2)
    (fun _ _ => Ok (Float64.literal 1 2)) (fun _ => None) csv tt.

End Training.

(** ** The notebooks as sequences of calls on runs *)

Module Notebook.

(** A run is one the notebook has submitted, numbered in the order of
    submission, or a child the platform made for one. *)
Inductive run_id :=
| Submitted (n : nat)
| ChildOf (parent : run_id) (k : nat).

Fixpoint root (r : run_id) : run_id :=
  match r with
  | Submitted n => Submitted n
  | ChildOf parent _ => root parent
  end.

#[global] Instance run_id_eq_dec : EqDecision run_id.
Proof. solve_decision. Defined.

(** The statements of a notebook that touch the platform; [v] and [parent]
    are the names of Python variables. *)
Inductive stmt :=
| Submit (v : string)
    (* v = experiment.submit(config), v = monitor.backfill(start, end) *)
| WaitForCompletion (v : string)
| GetMetrics (v : string)
| RegisterModel (v : string)
| BestRun (v parent : string)
    (* v = parent.get_best_run_by_primary_metric() *)
| ForChildren (v parent : string) (body : list stmt)
    (* for v in parent.get_children(): body *)
| ForMetrics (v : string) (body : list stmt)
    (* for metric in v.get_metrics(): body *)
| Call (name : string).

(** What has happened on the platform: an event is recorded when its call
    has returned. *)
Inductive event :=
| ESubmit (r : run_id)
| EWaited (r : run_id)
| EGetMetrics (r : run_id)
| ERegisterModel (r : run_id).

#[global] Instance event_eq_dec : EqDecision event.
Proof. solve_decision. Defined.

(** The platform, asked at its [i]-th call: whether the call raises, how
    many children or metrics it lists, and which child is the best one. *)
Record platform := {
  raises : nat -> bool;
  count : nat -> nat;
  best : nat -> nat
}.

Record state := {
  env : gmap string run_id;
  submissions : nat;
  calls : nat;
  trace : list event
}.

Definition initial : state :=
  {| env := ∅; submissions := 0; calls := 0; trace := [] |}.

(** One call to the platform: it raises, or returns, and the cell learns
    which call of the notebook it was. *)
Definition sdk (p : platform) : cell state nat :=
  fun st =>
    let st' := {| env := env st; submissions := submissions st;
                  calls := S (calls st); trace := trace st |} in
    if raises p (calls st) then (Raise (SdkError "the call failed"), st')
    else (Ok (calls st), st').

Definition record (e : event) : cell state unit :=
  modify (fun st => {| env := env st; submissions := submissions st;
                       calls := calls st; trace := trace st ++ [e] |}).

Definition assign (v : string) (r : run_id) : cell state unit :=
  modify (fun st => {| env := <[v := r]> (env st); submissions := submissions st;
                       calls := calls st; trace := trace st |}).

Definition fresh_run : cell state run_id :=
  fun st => (Ok (Submitted (submissions st)),
             {| env := env st; submissions := S (submissions st);
                calls := calls st; trace := trace st |}).

Definition variable (v : string) : cell state run_id :=
  fun st => match env st !! v with
            | Some r => (Ok r, st)
            | None => (Raise (NameError v), st)
            end.

Fixpoint exec (p : platform) (s : stmt) : cell state unit :=
  let block := fix block (body : list stmt) : cell state unit :=
    match body with
    | [] => ret tt
    | s' :: rest => exec p s' >>! block rest
    end in
  match s with
  | Submit v =>
      sdk p >>!
      let! r := fresh_run in
      record (ESubmit r) >>!
      assign v r
  | WaitForCompletion v =>
      let! r := variable v in
      sdk p >>!
      record (EWaited r)
  | GetMetrics v =>
      let! r := variable v in
      sdk p >>!
      record (EGetMetrics r)
  | RegisterModel v =>
      let! r := variable v in
      sdk p >>!
      record (ERegisterModel r)
  | BestRun v parent =>
      let! r := variable parent in
      let! i := sdk p in
      assign v (ChildOf r (best p i))
  | ForChildren v parent body =>
      let! r := variable parent in
      let! i := sdk p in
      for_each (seq 0 (count p i)) (fun k => assign v (ChildOf r k) >>! block body)
  | ForMetrics v body =>
      let! r := variable v in
      let! i := sdk p in
      record (EGetMetrics r) >>!
      for_each (seq 0 (count p i)) (fun _ => block body)
  | Call _ =>
      sdk p >>! ret tt
  end.

(** A notebook run from its first cell: an uncaught exception stops it. *)
Fixpoint exec_all (p : platform) (body : list stmt) : cell state unit :=
  match body with
  | [] => ret tt
  | s :: rest => exec p s >>! exec_all p rest
  end.

Definition run_notebook (p : platform) (notebook : list stmt) : list event :=
  trace (snd (exec_all p notebook initial)).

(** [covers w r]: [w] is [r] or one of the runs [r] descends from. *)
Fixpoint covers (w r : run_id) : bool :=
  if decide (w = r) then true
  else match r with
       | Submitted _ => false
       | ChildOf parent _ => covers w parent
       end.

(** Every event [use r] of the trace comes after the return of a wait for
    [r], or for a run [r] descends from. *)
Definition waited_first (use : run_id -> event) (tr : list event) : Prop :=
  forall (i : nat) (r : run_id),
    tr !! i = Some (use r) ->
    exists (j : nat) (w : run_id),
      (j < i)%nat /\ tr !! j = Some (EWaited w) /\ covers w r = true.

(** Every wait of the trace comes after the submission of the run. *)
Definition submitted_first (tr : list event) : Prop :=
  forall (i : nat) (r : run_id),
    tr !! i = Some (EWaited r) ->
    exists j : nat, (j < i)%nat /\ tr !! j = Some (ESubmit (root r)).

Definition in_order (tr : list event) : Prop :=
  submitted_first tr /\ waited_first EGetMetrics tr /\ waited_first ERegisterModel tr.

(** The check of a notebook: [waited] holds the variables known to name a
    run whose wait has returned; the result is that set after the
    statement, or nothing when the statement uses a run outside it. *)
Fixpoint check (waited : gset string) (s : stmt) : option (gset string) :=
  let block := fix block (waited : gset string) (body : list stmt) : option (gset string) :=
    match body with
    | [] => Some waited
    | s' :: rest =>
        match check waited s' with
        | Some waited' => block waited' rest
        | None => None
        end
    end in
  match s with
  | Submit v => Some (waited ∖ {[v]})
  | WaitForCompletion v => Some (waited ∪ {[v]})
  | GetMetrics v | RegisterModel v =>
      if decide (v ∈ waited) then Some waited else None
  | BestRun v parent =>
      if decide (parent ∈ waited) then Some (waited ∪ {[v]}) else Some (waited ∖ {[v]})
  | ForChildren v parent body =>
      let inside := if decide (parent ∈ waited) then waited ∪ {[v]} else waited ∖ {[v]} in
      match block inside body with
      | Some after => if decide (inside ⊆ after) then Some (waited ∖ {[v]}) else None
      | None => None
      end
  | ForMetrics v body =>
      if decide (v ∈ waited) then
        match block waited body with
        | Some after => if decide (waited ⊆ after) then Some waited else None
        | None => None
        end
      else None
  | Call _ => Some waited
  end.

Fixpoint check_all (waited : gset string) (body : list stmt) : option (gset string) :=
  match body with
  | [] => Some waited
  | s :: rest =>
      match check waited s with
      | Some waited' => check_all waited' rest
      | None => None
      end
  end.

(** *** The invariants the check maintains *)

Definition submitted_env (st : state) : Prop :=
  forall v r, env st !! v = Some r -> ESubmit (root r) ∈ trace st.

Definition waited_env (waited : gset string) (st : state) : Prop :=
  forall v, v ∈ waited ->
    exists r w, env st !! v = Some r /\ EWaited w ∈ trace st /\ covers w r = true.

Definition safe (st : state) : Prop := in_order (trace st) /\ submitted_env st.

Definition extends (st st' : state) : Prop :=
  forall e, e ∈ trace st -> e ∈ trace st'.

Definition post (waited : gset string) (st : state) (out : result unit * state) : Prop :=
  safe (snd out) /\ extends st (snd out) /\
  (fst out = Ok tt -> waited_env waited (snd out)).

Definition sound_stmt (p : platform) (s : stmt) : Prop :=
  forall waited waited' st,
    check waited s = Some waited' -> safe st -> waited_env waited st ->
    post waited' st (exec p s st).

(** A platform on which no call raises, and which lists two children and
    two metrics, the first child being the best one. *)
Definition obliging : platform :=
  {| raises := fun _ => false; count := fun _ => 2%nat; best := fun _ => 0%nat |}.

(** *** The six notebooks *)

(** Train Models *)
Definition train_models : list stmt :=
  [ Call "Workspace.from_config";
    Call "Experiment";
    Submit "run";
    Call "RunDetails(run).show";
    WaitForCompletion "run";
    GetMetrics "run";
    Call "run.get_file_names";
    GetMetrics "run";
    GetMetrics "run";
    RegisterModel "run";
    Call "Model.list";
    Call "Experiment";
    Submit "run";
    Call "RunDetails(run).show";
    WaitForCompletion "run";
    GetMetrics "run";
    Call "run.get_file_names";
    GetMetrics "run";
    GetMetrics "run";
    RegisterModel "run";
    Call "Model.list" ].

(** Monitor Data Drift *)
Definition monitor_data_drift : list stmt :=
  [ Call "Workspace.from_config";
    Call "default_ds.upload_files";
    Call "baseline_data_set.register";
    Call "default_ds.upload_files";
    Call "target_data_set.register";
    Call "ComputeTarget";
    Call "DataDriftDetector.create_from_datasets";
    Submit "backfill";
    Call "RunDetails(backfill).show";
    WaitForCompletion "backfill";
    GetMetrics "backfill" ].

(** Tune Hyperparameters *)
Definition tune_hyperparameters : list stmt :=
  [ Call "Workspace.from_config";
    Call "tab_data_set.register";
    Call "ComputeTarget";
    Call "Experiment";
    Submit "run";
    Call "RunDetails(run).show";
    WaitForCompletion "run";
    ForChildren "child_run" "run" [];
    BestRun "best_run" "run";
    GetMetrics "best_run";
    Call "best_run.get_details";
    RegisterModel "best_run";
    Call "Model.list" ].

(** Use Automated Machine Learning *)
Definition use_automated_machine_learning : list stmt :=
  [ Call "Workspace.from_config";
    Call "tab_data_set.register";
    Call "diabetes_ds.random_split";
    Call "ComputeTarget";
    Call "Experiment";
    Submit "automl_run";
    Call "RunDetails(automl_run).show";
    WaitForCompletion "automl_run";
    ForChildren "run" "automl_run" [ ForMetrics "run" [ GetMetrics "run" ] ] ].

(** Interpret Models *)
Definition interpret_models : list stmt :=
  [ Call "Workspace.from_config";
    Call "Experiment";
    Submit "run";
    Call "RunDetails(run).show";
    WaitForCompletion "run";
    Call "ExplanationClient.from_run";
    Call "client.download_model_explanation" ].

(** Work with Compute *)
Definition work_with_compute : list stmt :=
  [ Call "Workspace.from_config";
    Call "tab_data_set.register";
    Call "Experiment";
    Submit "run";
    Call "RunDetails(run).show";
    WaitForCompletion "run";
    GetMetrics "run";
    Call "run.get_file_names";
    Call "diabetes_env.register";
    Call "Environment.get";
    Call "Experiment";
    Submit "run";
    Call "RunDetails(run).show";
    WaitForCompletion "run";
    GetMetrics "run";
    Call "run.get_file_names";
    Call "Environment.list";
    Call "ComputeTarget";
    Call "Experiment";
    Submit "run";
    Call "RunDetails(run).show";
    Call "training_cluster.get_status";
    WaitForCompletion "run";
    GetMetrics "run";
    Call "run.get_file_names";
    GetMetrics "run";
    GetMetrics "run";
    RegisterModel "run";
    Call "Model.list" ].

Definition notebooks : list (list stmt) :=
  [ train_models; monitor_data_drift; tune_hyperparameters;
    use_automated_machine_learning; interpret_models; work_with_compute ].

End Notebook.

(** ** The local computations of the cells *)

Module Core.

(** Computations a cell carries out itself, on the machine the notebook or
    the script runs on. *)
Inductive local_computation :=
| DriftedData      (* the frame the drift loop builds from diabetes2.csv *)
| PredictionLines  (* what the scoring cell prints for a response *)
| FeatureSelection (* X and y, from the frame of diabetes.csv *)
| TestSplit.       (* the train and test rows, from diabetes.csv *)

(** Two runs on the same input give the same output, whatever else differs
    between them: the clock and the files on disk, the endpoint and the
    key, every column besides the eight feature columns and the label
    column, numpy's global generator. *)
Definition input_determines_output (c : local_computation) : Prop :=
  match c with
  | DriftedData =>
      forall (clock1 clock2 : nat -> Z) (diabetes2 : Pandas.frame)
             (files1 files2 : gmap Drift.path Pandas.frame),
        fst (Drift.generate clock1 diabetes2 files1)
        = fst (Drift.generate clock2 diabetes2 files2) /\
        Drift.data (snd (Drift.generate clock1 diabetes2 files1))
        = Drift.data (snd (Drift.generate clock2 diabetes2 files2))
  | PredictionLines =>
      forall (dumps1 dumps2 : Py.pyval -> string) (loads : string -> result Py.pyval)
             (endpoint1 key1 endpoint2 key2 : string) (response : Scoring.response),
        Scoring.stdout
          (snd (Scoring.auto_predict dumps1 loads endpoint1 key1 (Ok response) Scoring.initial))
        = Scoring.stdout
            (snd (Scoring.auto_predict dumps2 loads endpoint2 key2 (Ok response) Scoring.initial))
  | FeatureSelection =>
      forall diabetes1 diabetes2 : Pandas.frame,
        (forall name,
            name ∈ ["Pregnancies"; "PlasmaGlucose"; "DiastolicBloodPressure";
                    "TricepsThickness"; "SerumInsulin"; "BMI"; "DiabetesPedigree"; "Age";
                    "Diabetic"] ->
            diabetes1 !! name = diabetes2 !! name) ->
        Training.features_and_labels diabetes1 = Training.features_and_labels diabetes2
  | TestSplit =>
      forall (rng : Type) (RandomState : Z -> rng) (permutation : rng -> nat -> list nat)
             (csv : result Pandas.frame) (global_rng1 global_rng2 : rng),
        Training.diabetes_training_split rng RandomState permutation csv global_rng1
        = Training.diabetes_training_split rng RandomState permutation csv global_rng2
  end.

(** The sentence of the specification: no local computation is a function
    of its input. *)
Definition no_deterministic_core : Prop :=
  forall c : local_computation, ~ input_determines_output c.

End Core.

(** ** Runs that a failing call cuts short *)

Module Truncation.
Import Notebook.

(** The platform [p] when no call raises. *)
Definition calm (p : platform) : platform :=
  {| raises := fun _ => false; count := count p; best := best p |}.

(** [c] does what [c'] does, up to the point where it raises. *)
Definition truncates (c c' : cell state unit) : Prop :=
  forall st,
    match c st with
    | (Ok _, st1) => c' st = (Ok tt, st1)
    | (Raise _, st1) => trace st1 `prefix_of` trace (snd (c' st))
    end.

(** [c] only adds events. *)
Definition grows (c : cell state unit) : Prop :=
  forall st, trace st `prefix_of` trace (snd (c st)).

End Truncation.

(** ** The files of the drift loop *)

Module DriftFiles.
Import Pandas Drift.

(** The paths of the passes over [ws], the first of which reads the clock
    for the [start]-th time. *)
Definition dated (clock : nat -> Z) (start : nat) (ws : list Z) : list path :=
  imap (fun i w => DiabetesCsv (clock (start + i)%nat - 7 * w)) ws.

(** The two patients without the column of ages, and with an empty cell in
    it (pandas reads the column as floats, the empty cell as NaN). *)
Definition sample_without_age : frame := delete "Age" sample_diabetes2.

Definition sample_empty_age : frame :=
  <["Age" := ColFloat [Float64.of_Z 21; S754_nan]]> sample_diabetes2.

End DriftFiles.

(** ** Examples for the designer-pipeline cell and the training scripts *)

Module Examples.
Import Py Training.

(** A designer service that answers for one patient. *)
Definition sample_output : list (string * pyval) :=
  [("PatientID", PyInt 1882185);
   ("DiabetesPrediction", PyInt 1);
   ("Probability", PyFloat (Float64.literal 7 10))].

Definition sample_designer_loads (s : string) : result pyval :=
  if String.eqb s "body"
  then Ok (PyDict [("Results", PyDict [("WebServiceOutput0", PyList [PyDict sample_output])])])
  else Raise JSONDecodeError.

(** The run of a script that an exception ends while it loads its data. *)
Definition loading_only : run :=
  {| metrics := []; stdout := [[say "Loading Data..."]]; outputs := []; completed := false |}.


Definition sample_one_patient : Pandas.frame :=
  list_to_map
    [("Pregnancies", Pandas.ColInt [0]);
     ("PlasmaGlucose", Pandas.ColInt [171]);
     ("DiastolicBloodPressure", Pandas.ColInt [80]);
     ("TricepsThickness", Pandas.ColInt [34]);
     ("SerumInsulin", Pandas.ColInt [23]);
     ("BMI", Pandas.ColFloat [Float64.literal 4350 100]);
     ("DiabetesPedigree", Pandas.ColFloat [Float64.literal 121 100]);
     ("Age", Pandas.ColInt [21]);
     ("Diabetic", Pandas.ColInt [0])].

End Examples.

(** ** The end of a training script *)

Module ScriptEnds.
Import Training.

(** The outcome [out] of a script has kept the order of the last steps,
    where [raises] says which calls raise: a script that returns has written
    the model file, and nothing else, and completed the run; a completed run
    has the model file; the model file is written only after the three
    metrics were logged; and unless [joblib.dump] or [run.complete]
    themselves raise, a script that an exception ends has written no file
    and has not completed the run. *)
Definition ends_in_order (raises : call -> option exn) (out : result unit * run) : Prop :=
  (fst out = Ok tt ->
   outputs (snd out) = ["outputs/diabetes_model.pkl"] /\ completed (snd out) = true) /\
  (completed (snd out) = true -> outputs (snd out) = ["outputs/diabetes_model.pkl"]) /\
  (outputs (snd out) <> [] ->
   outputs (snd out) = ["outputs/diabetes_model.pkl"] /\
   map fst (metrics (snd out)) = ["Regularization Rate"; "Accuracy"; "AUC"]) /\
  (raises Dump = None -> raises Complete = None ->
   forall e, fst out = Raise e -> outputs (snd out) = [] /\ completed (snd out) = false).

End ScriptEnds.

(** ** The number of test rows *)

Module SplitSizes.

(** The table the proofs check the float arithmetic of the test size
    against: [ceil(test_size * n)] in binary64 is the least integer not
    below [3 n / 10]. *)
Definition test_rows_ok (test_size : spec_float) (n : Z) : bool :=
  match Float64.ceil (Float64.mul test_size (Float64.of_Z n)) with
  | Some k => k =? (3 * n + 9) / 10
  | None => false
  end.

(** [start], [start + 1], ...: [count] integers in all. *)
Fixpoint zrange (start : Z) (count : nat) : list Z :=
  match count with
  | O => []
  | S count => start :: zrange (start + 1) count
  end.

End SplitSizes.

(** * Theorems *)

(** ** The simulated-drift generator *)

Section DriftGenerator.
Import Pandas Drift.

Lemma age_table : forallb age_row_ok (map Z.of_nat (seq 0 450)) = true.
Proof. vm_compute. reflexivity. Qed.

Lemma age_step_nearest a :
  0 <= a < 450 ->
  Float64.is_finite (age_float a) = true /\ age_step a = (12 * a + 5) / 10.
Proof.
  intros Ha.
  pose proof age_table as T.
  rewrite forallb_forall in T.
  specialize (T a).
  assert (In a (map Z.of_nat (seq 0 450))) as Hin.
  { apply in_map_iff. exists (Z.to_nat a). split; [lia|]. apply in_seq. lia. }
  apply T in Hin. unfold age_row_ok in Hin.
  apply andb_true_iff in Hin as [F E]. split; [exact F | lia].
Qed.


Lemma drifted_other df ps ages bs name :
  shaped df ps ages bs ->
  name <> "Pregnancies" -> name <> "Age" -> name <> "BMI" ->
  drifted df !! name = df !! name.
Proof.
  intros (P & A & B) N1 N2 N3. unfold drifted. rewrite P, A, B.
  simplify_map_eq. reflexivity.
Qed.











End DriftGenerator.

(** ** The order of the calls on runs *)

Section RunOrder.
Import Notebook.

Section StmtInd.
Variable P : stmt -> Prop.
Hypothesis HSubmit : forall v, P (Submit v).
Hypothesis HWait : forall v, P (WaitForCompletion v).
Hypothesis HGet : forall v, P (GetMetrics v).
Hypothesis HReg : forall v, P (RegisterModel v).
Hypothesis HBest : forall v parent, P (BestRun v parent).
Hypothesis HChildren : forall v parent body, Forall P body -> P (ForChildren v parent body).
Hypothesis HMetrics : forall v body, Forall P body -> P (ForMetrics v body).
Hypothesis HCall : forall name, P (Call name).

Fixpoint stmt_nested_ind (s : stmt) : P s :=
  let all := fix all (body : list stmt) : Forall P body :=
    match body with
    | [] => List.Forall_nil P
    | s' :: rest => List.Forall_cons P s' rest (stmt_nested_ind s') (all rest)
    end in
  match s with
  | Submit v => HSubmit v
  | WaitForCompletion v => HWait v
  | GetMetrics v => HGet v
  | RegisterModel v => HReg v
  | BestRun v parent => HBest v parent
  | ForChildren v parent body => HChildren v parent body (all body)
  | ForMetrics v body => HMetrics v body (all body)
  | Call name => HCall name
  end.
End StmtInd.

Lemma for_each_ext {S A} (xs : list A) (f g : A -> cell S unit) :
  (forall x st, f x st = g x st) -> forall st, for_each xs f st = for_each xs g st.
Proof.
  intros E. induction xs as [|x xs IH]; intros st; [reflexivity|].
  cbn [for_each]. unfold bind. rewrite E. destruct (g x st) as [[[]|e] st']; [apply IH|reflexivity].
Qed.

Lemma exec_block p body st :
  (fix block (body : list stmt) : cell state unit :=
     match body with
     | [] => ret tt
     | s' :: rest => exec p s' >>! block rest
     end) body st = exec_all p body st.
Proof.
  revert st. induction body as [|s body IH]; intros st; [reflexivity|].
  cbn [exec_all]. unfold bind. destruct (exec p s st) as [[[]|e] st']; [apply IH|reflexivity].
Qed.

Lemma check_block W body :
  (fix block (waited : gset string) (body : list stmt) : option (gset string) :=
    match body with
    | [] => Some waited
    | s' :: rest =>
        match check waited s' with
        | Some waited' => block waited' rest
        | None => None
        end
    end) W body = check_all W body.
Proof.
  revert W. induction body as [|s body IH]; intros W; [reflexivity|].
  cbn [check_all]. destruct (check W s); [apply IH|reflexivity].
Qed.

Lemma exec_ForChildren p v parent body st :
  exec p (ForChildren v parent body) st
  = (let! r := variable parent in
     let! i := sdk p in
     for_each (seq 0 (count p i)) (fun k => assign v (ChildOf r k) >>! exec_all p body)) st.
Proof.
  cbn [exec]. unfold bind. destruct (variable parent st) as [[r|e] st1]; [|reflexivity].
  destruct (sdk p st1) as [[n|e] st2]; [|reflexivity].
  apply for_each_ext. intros k st3. destruct (assign v (ChildOf r k) st3) as [[[]|e] st4]; [|reflexivity].
  apply exec_block.
Qed.

Lemma exec_ForMetrics p v body st :
  exec p (ForMetrics v body) st
  = (let! r := variable v in
     let! i := sdk p in
     record (EGetMetrics r) >>!
     for_each (seq 0 (count p i)) (fun _ => exec_all p body)) st.
Proof.
  cbn [exec]. unfold bind. destruct (variable v st) as [[r|e] st1]; [|reflexivity].
  destruct (sdk p st1) as [[n|e] st2]; [|reflexivity].
  destruct (record (EGetMetrics r) st2) as [[[]|e] st3]; [|reflexivity].
  apply for_each_ext. intros k st4. apply exec_block.
Qed.

Lemma check_ForChildren W v parent body :
  check W (ForChildren v parent body)
  = let inside := if decide (parent ∈ W) then W ∪ {[v]} else W ∖ {[v]} in
    match check_all inside body with
    | Some after => if decide (inside ⊆ after) then Some (W ∖ {[v]}) else None
    | None => None
    end.
Proof. cbn [check]. rewrite check_block. reflexivity. Qed.

Lemma check_ForMetrics W v body :
  check W (ForMetrics v body)
  = if decide (v ∈ W) then
      match check_all W body with
      | Some after => if decide (W ⊆ after) then Some W else None
      | None => None
      end
    else None.
Proof. cbn [check]. rewrite check_block. reflexivity. Qed.


Lemma covers_refl r : covers r r = true.
Proof. destruct r; cbn [covers]; rewrite decide_True by reflexivity; reflexivity. Qed.

Lemma covers_child w r k : covers w r = true -> covers w (ChildOf r k) = true.
Proof. intros H. cbn [covers]. rewrite H. destruct (decide _); reflexivity. Qed.

Lemma covers_submitted w n : covers w (Submitted n) = true -> w = Submitted n.
Proof. cbn [covers]. destruct (decide _); [auto|intros [=]]. Qed.

Lemma snoc_lookup_cases {A} (tr : list A) (e x : A) (i : nat) :
  (tr ++ [e]) !! i = Some x ->
  ((i < length tr)%nat /\ tr !! i = Some x) \/ (i = length tr /\ x = e).
Proof.
  intros Hi. destruct (decide (i < length tr)%nat) as [Hlt|Hge].
  - left. rewrite lookup_app_l in Hi by exact Hlt. auto.
  - right. pose proof (lookup_lt_Some _ _ _ Hi) as Hlen.
    rewrite length_app in Hlen. simpl in Hlen.
    assert (i = length tr) as -> by lia.
    rewrite list_lookup_middle in Hi by reflexivity. injection Hi as <-. auto.
Qed.

Lemma earlier_in_snoc {A} (tr : list A) (e d : A) (j : nat) :
  tr !! j = Some d -> (tr ++ [e]) !! j = Some d.
Proof. intros Hj. rewrite lookup_app_l by exact (lookup_lt_Some _ _ _ Hj). exact Hj. Qed.

Lemma waited_first_snoc use tr e :
  waited_first use tr ->
  (forall r, e = use r -> exists w, EWaited w ∈ tr /\ covers w r = true) ->
  waited_first use (tr ++ [e]).
Proof.
  intros Htr He i r Hi.
  destruct (snoc_lookup_cases _ _ _ _ Hi) as [[Hlt Hold]|[-> Heq]].
  - destruct (Htr i r Hold) as (j & w & Hj & Hw & Hc).
    exists j, w. split; [exact Hj|]. split; [apply earlier_in_snoc; exact Hw|exact Hc].
  - destruct (He r (eq_sym Heq)) as (w & Hw & Hc).
    apply list_elem_of_lookup in Hw as (j & Hj).
    exists j, w. split; [exact (lookup_lt_Some _ _ _ Hj)|].
    split; [apply earlier_in_snoc; exact Hj|exact Hc].
Qed.

Lemma submitted_first_snoc tr e :
  submitted_first tr ->
  (forall r, e = EWaited r -> ESubmit (root r) ∈ tr) ->
  submitted_first (tr ++ [e]).
Proof.
  intros Htr He i r Hi.
  destruct (snoc_lookup_cases _ _ _ _ Hi) as [[Hlt Hold]|[-> Heq]].
  - destruct (Htr i r Hold) as (j & Hj & Hs).
    exists j. split; [exact Hj|apply earlier_in_snoc; exact Hs].
  - pose proof (He r (eq_sym Heq)) as Hs.
    apply list_elem_of_lookup in Hs as (j & Hj).
    exists j. split; [exact (lookup_lt_Some _ _ _ Hj)|apply earlier_in_snoc; exact Hj].
Qed.

Lemma waited_env_mono W W' st : W' ⊆ W -> waited_env W st -> waited_env W' st.
Proof. intros Hsub H v Hv. apply H. set_solver. Qed.

Lemma extends_refl st : extends st st.
Proof. intros e He. exact He. Qed.

Lemma extends_trans st1 st2 st3 : extends st1 st2 -> extends st2 st3 -> extends st1 st3.
Proof. intros H12 H23 e He. apply H23, H12, He. Qed.

Lemma sdk_spec p st :
  exists r, sdk p st = (r, {| env := env st; submissions := submissions st;
                             calls := S (calls st); trace := trace st |}).
Proof. unfold sdk. destruct (raises p (calls st)); eexists; reflexivity. Qed.

Ltac run_sdk p st r := destruct (sdk_spec p st) as [r ->].

Lemma post_same W st r st' :
  safe st -> waited_env W st -> trace st' = trace st -> env st' = env st ->
  post W st (r, st').
Proof.
  intros [Ho Hs] Hw Ht He. split; [|split].
  - split; simpl; [rewrite Ht; exact Ho|]. intros v q Hv. simpl in *. rewrite He in Hv. rewrite Ht. eauto.
  - intros x Hx. simpl. rewrite Ht. exact Hx.
  - intros _ v Hv. destruct (Hw v Hv) as (q & w & Hq & Hwt & Hc).
    exists q, w. simpl. rewrite He, Ht. auto.
Qed.

Lemma post_raise W st e st' :
  safe st -> trace st' = trace st -> env st' = env st -> post W st (Raise e, st').
Proof.
  intros [Ho Hs] Ht He. split; [|split].
  - split; simpl; [rewrite Ht; exact Ho|]. intros v q Hv. simpl in *. rewrite He in Hv. rewrite Ht. eauto.
  - intros x Hx. simpl. rewrite Ht. exact Hx.
  - intros [=].
Qed.

(** A statement that uses the run of [v] after its wait. *)
Lemma use_sound p (v : string) (use : run_id -> event) W st :
  (use = EGetMetrics \/ use = ERegisterModel) ->
  v ∈ W -> safe st -> waited_env W st ->
  post W st ((let! r := variable v in sdk p >>! record (use r)) st).
Proof.
  intros Huse Hv [(Hsf & Hgm & Hrm) Hs] Hw.
  destruct (Hw v Hv) as (r & w & Hr & Hwaited & Hc).
  unfold bind at 1. unfold variable. rewrite Hr.
  unfold bind. run_sdk p st a.
  destruct a as [a|e]; [|apply (post_same W st); [repeat split; assumption|assumption|reflexivity|reflexivity]].
  cbn. split; [|split].
  - split; simpl.
    + split; [|split].
      * apply submitted_first_snoc; [exact Hsf|]. intros q Hq. destruct Huse as [-> | ->]; discriminate Hq.
      * apply waited_first_snoc; [exact Hgm|]. intros q Hq.
        destruct Huse as [-> | ->]; [injection Hq as ->; eauto|discriminate Hq].
      * apply waited_first_snoc; [exact Hrm|]. intros q Hq.
        destruct Huse as [-> | ->]; [discriminate Hq|injection Hq as ->; eauto].
    + intros u q Hu. apply elem_of_app. left. eauto.
  - intros x Hx. simpl. apply elem_of_app. left. exact Hx.
  - intros _ u Hu. destruct (Hw u Hu) as (q & w' & Hq & Hqw & Hc'). exists q, w'. simpl.
    split; [exact Hq|]. split; [|exact Hc']. apply elem_of_app. left. exact Hqw.
Qed.

Lemma submit_sound p v W st :
  safe st -> waited_env W st -> post (W ∖ {[v]}) st (exec p (Submit v) st).
Proof.
  intros [(Hsf & Hgm & Hrm) Hs] Hw. cbn [exec]. unfold bind at 1. run_sdk p st a.
  destruct a as [a|e].
  2:{ apply (post_same _ st); [repeat split; assumption| |reflexivity|reflexivity].
      eapply waited_env_mono; [|exact Hw]. set_solver. }
  cbn. split; [|split].
  - split; simpl.
    + split; [|split].
      * apply submitted_first_snoc; [exact Hsf|]. intros q [=].
      * apply waited_first_snoc; [exact Hgm|]. intros q [=].
      * apply waited_first_snoc; [exact Hrm|]. intros q [=].
    + intros u q Hu. simpl in Hu. apply elem_of_app. destruct (decide (v = u)) as [->|Hne].
      * rewrite lookup_insert_eq in Hu. injection Hu as <-. right. cbn [root]. set_solver.
      * rewrite lookup_insert_ne in Hu by exact Hne. left. eauto.
  - intros x Hx. simpl. apply elem_of_app. left. exact Hx.
  - intros _ u Hu. apply elem_of_difference in Hu as [Hu Hnv].
    destruct (Hw u Hu) as (q & w & Hq & Hqw & Hc). exists q, w. simpl.
    rewrite lookup_insert_ne by set_solver.
    split; [exact Hq|]. split; [|exact Hc]. apply elem_of_app. left. exact Hqw.
Qed.

Lemma wait_sound p v W st :
  safe st -> waited_env W st -> post (W ∪ {[v]}) st (exec p (WaitForCompletion v) st).
Proof.
  intros [(Hsf & Hgm & Hrm) Hs] Hw. cbn [exec]. unfold bind at 1. unfold variable.
  destruct (env st !! v) as [r|] eqn:Hr.
  2:{ apply post_raise; [repeat split; assumption|reflexivity|reflexivity]. }
  unfold bind. run_sdk p st a.
  destruct a as [a|e].
  { cbn. split; [|split].
    - split; simpl.
      + split; [|split].
        * apply submitted_first_snoc; [exact Hsf|]. intros q [= <-]. eauto.
        * apply waited_first_snoc; [exact Hgm|]. intros q [=].
        * apply waited_first_snoc; [exact Hrm|]. intros q [=].
      + intros u q Hu. apply elem_of_app. left. eauto.
    - intros x Hx. simpl. apply elem_of_app. left. exact Hx.
    - intros _ u Hu. simpl. apply elem_of_union in Hu as [Hu|Hu].
      + destruct (Hw u Hu) as (q & w & Hq & Hqw & Hc). exists q, w.
        split; [exact Hq|]. split; [|exact Hc]. apply elem_of_app. left. exact Hqw.
      + apply elem_of_singleton in Hu as ->. exists r, r.
        split; [exact Hr|]. split; [|apply covers_refl]. apply elem_of_app. right. set_solver. }
  apply post_raise; [repeat split; assumption|reflexivity|reflexivity].
Qed.

Lemma best_run_sound p v parent W st :
  safe st -> waited_env W st ->
  post (if decide (parent ∈ W) then W ∪ {[v]} else W ∖ {[v]}) st
       (exec p (BestRun v parent) st).
Proof.
  intros [Ho Hs] Hw. cbn [exec]. unfold bind at 1. unfold variable.
  destruct (env st !! parent) as [r|] eqn:Hr.
  2:{ apply post_raise; [split; assumption|reflexivity|reflexivity]. }
  unfold bind. run_sdk p st a.
  destruct a as [k|e].
  2:{ apply post_raise; [split; assumption|reflexivity|reflexivity]. }
  unfold assign, modify. cbn. split; [|split].
  - split; simpl; [exact Ho|].
    intros u q Hu. simpl in Hu. destruct (decide (v = u)) as [->|Hne].
    + rewrite lookup_insert_eq in Hu. injection Hu as <-. cbn [root]. eauto.
    + rewrite lookup_insert_ne in Hu by exact Hne. eauto.
  - intros x Hx. exact Hx.
  - intros _ u Hu. simpl. destruct (decide (v = u)) as [->|Hne].
    + rewrite lookup_insert_eq. destruct (decide (parent ∈ W)) as [Hp|Hp]; [|set_solver].
      destruct (Hw parent Hp) as (q & w & Hq & Hqw & Hc). rewrite Hr in Hq. injection Hq as <-.
      exists (ChildOf r (best p k)), w.
      split; [reflexivity|]. split; [exact Hqw|apply covers_child; exact Hc].
    + rewrite lookup_insert_ne by exact Hne. apply Hw.
      destruct (decide (parent ∈ W)); set_solver.
Qed.

Lemma call_sound p name W st :
  safe st -> waited_env W st -> post W st (exec p (Call name) st).
Proof.
  intros Hsafe Hw. cbn [exec]. unfold bind. run_sdk p st a.
  destruct a; apply (post_same W st); auto.
Qed.

Lemma for_each_post {A} (xs : list A) (f : A -> cell state unit) (J : state -> Prop) :
  (forall x st, safe st -> J st ->
     safe (snd (f x st)) /\ extends st (snd (f x st)) /\
     (fst (f x st) = Ok tt -> J (snd (f x st)))) ->
  forall st, safe st -> J st ->
    safe (snd (for_each xs f st)) /\ extends st (snd (for_each xs f st)) /\
    (fst (for_each xs f st) = Ok tt -> J (snd (for_each xs f st))).
Proof.
  intros Hf. induction xs as [|x xs IH]; intros st Hsafe HJ.
  - cbn. split; [exact Hsafe|]. split; [apply extends_refl|auto].
  - cbn [for_each]. unfold bind. destruct (Hf x st Hsafe HJ) as (Hs1 & He1 & HJ1).
    destruct (f x st) as [[[]|e] st1]; simpl in *.
    + destruct (IH st1 Hs1 (HJ1 eq_refl)) as (Hs2 & He2 & HJ2).
      split; [exact Hs2|]. split; [eapply extends_trans; eassumption|exact HJ2].
    + split; [exact Hs1|]. split; [exact He1|intros [=]].
Qed.

Lemma exec_all_sound p body :
  Forall (sound_stmt p) body ->
  forall W W' st, check_all W body = Some W' -> safe st -> waited_env W st ->
    post W' st (exec_all p body st).
Proof.
  induction 1 as [|s body Hs _ IH]; intros W W' st Hc Hsafe Hw.
  - cbn in *. injection Hc as <-. split; [exact Hsafe|]. split; [apply extends_refl|auto].
  - cbn [check_all] in Hc. destruct (check W s) as [W1|] eqn:Hc1; [|discriminate].
    cbn [exec_all]. unfold bind.
    destruct (Hs W W1 st Hc1 Hsafe Hw) as (Hs1 & He1 & Hw1).
    destruct (exec p s st) as [[[]|e] st1]; simpl in *.
    + destruct (IH W1 W' st1 Hc Hs1 (Hw1 eq_refl)) as (Hs2 & He2 & Hw2).
      split; [exact Hs2|]. split; [eapply extends_trans; eassumption|exact Hw2].
    + split; [exact Hs1|]. split; [exact He1|intros [=]].
Qed.

Lemma for_children_sound p v parent body :
  Forall (sound_stmt p) body -> sound_stmt p (ForChildren v parent body).
Proof.
  intros Hbody W W' st Hc Hsafe Hw.
  rewrite check_ForChildren in Hc. cbv zeta in Hc.
  set (inside := if decide (parent ∈ W) then W ∪ {[v]} else W ∖ {[v]}) in *.
  destruct (check_all inside body) as [after|] eqn:Hafter; [|discriminate].
  destruct (decide (inside ⊆ after)) as [Hsub|]; [|discriminate].
  injection Hc as <-.
  rewrite exec_ForChildren. unfold bind at 1. unfold variable.
  destruct (env st !! parent) as [r|] eqn:Hr.
  2:{ apply post_raise; [exact Hsafe|reflexivity|reflexivity]. }
  unfold bind at 1. run_sdk p st a.
  destruct a as [n|e].
  2:{ apply post_raise; [exact Hsafe|reflexivity|reflexivity]. }
  set (st1 := {| env := env st; submissions := submissions st;
                 calls := S (calls st); trace := trace st |}).
  set (J := fun s : state =>
              ESubmit (root r) ∈ trace s /\
              (parent ∈ W -> exists w, EWaited w ∈ trace s /\ covers w r = true) /\
              waited_env (W ∖ {[v]}) s).
  assert (safe st1) as Hsafe1 by exact Hsafe.
  assert (J st1) as HJ1.
  { split; [destruct Hsafe as [_ Hs]; exact (Hs _ _ Hr)|]. split.
    - intros Hp. destruct (Hw parent Hp) as (q & w & Hq & Hqw & Hcq).
      rewrite Hr in Hq. injection Hq as <-. eauto.
    - eapply waited_env_mono; [|exact Hw]. set_solver. }
  destruct (for_each_post (seq 0 (count p n))
              (fun k => assign v (ChildOf r k) >>! exec_all p body) J) with (st := st1)
    as (Hs2 & He2 & HJ2); [|exact Hsafe1|exact HJ1|].
  - intros k s [Hos Hss] (Hsub_r & Hwait_r & Hws).
    unfold bind. unfold assign at 1 2 3. unfold modify. 
    set (s1 := {| env := <[v := ChildOf r k]> (env s); submissions := submissions s;
                  calls := calls s; trace := trace s |}).
    assert (safe s1) as Hsafe_s1.
    { split; [exact Hos|]. intros u q Hu. simpl in Hu. simpl.
      destruct (decide (v = u)) as [->|Hne].
      - rewrite lookup_insert_eq in Hu. injection Hu as <-. exact Hsub_r.
      - rewrite lookup_insert_ne in Hu by exact Hne. eauto. }
    assert (waited_env inside s1) as Hw_s1.
    { intros u Hu. simpl. destruct (decide (v = u)) as [->|Hne].
      - rewrite lookup_insert_eq. subst inside.
        destruct (decide (parent ∈ W)) as [Hp|Hp]; [|set_solver].
        destruct (Hwait_r Hp) as (w & Hw1 & Hc1).
        exists (ChildOf r k), w. split; [reflexivity|]. split; [exact Hw1|apply covers_child; exact Hc1].
      - rewrite lookup_insert_ne by exact Hne. apply Hws. subst inside.
        destruct (decide (parent ∈ W)); set_solver. }
    destruct (exec_all_sound p body Hbody inside after s1 Hafter Hsafe_s1 Hw_s1)
      as (Hs3 & He3 & Hw3).
    split; [exact Hs3|]. split; [exact He3|].
    intros Hok. split; [apply He3; exact Hsub_r|]. split.
    + intros Hp. destruct (Hwait_r Hp) as (w & Hw1 & Hc1). exists w. split; [apply He3; exact Hw1|exact Hc1].
    + eapply waited_env_mono; [|exact (Hw3 Hok)].
      subst inside. destruct (decide (parent ∈ W)); set_solver.
  - split; [exact Hs2|]. split; [exact He2|]. intros Hok. apply HJ2. exact Hok.
Qed.

Lemma for_metrics_sound p v body :
  Forall (sound_stmt p) body -> sound_stmt p (ForMetrics v body).
Proof.
  intros Hbody W W' st Hc Hsafe Hw.
  rewrite check_ForMetrics in Hc.
  destruct (decide (v ∈ W)) as [Hv|]; [|discriminate].
  destruct (check_all W body) as [after|] eqn:Hafter; [|discriminate].
  destruct (decide (W ⊆ after)) as [Hsub|]; [|discriminate].
  injection Hc as <-.
  rewrite exec_ForMetrics.
  pose proof (use_sound p v EGetMetrics W st (or_introl eq_refl) Hv Hsafe Hw) as Huse.
  unfold bind at 1. unfold bind at 1 in Huse.
  destruct (variable v st) as [[r|e] st0]; [|exact Huse].
  unfold bind at 1. unfold bind at 1 in Huse.
  destruct (sdk p st0) as [[n|e] st1]; [|exact Huse].
  unfold bind at 1.
  destruct (record (EGetMetrics r) st1) as [[[]|e] st2]; [|exact Huse].
  destruct Huse as (Hs2 & He2 & Hw2). simpl in Hs2, He2, Hw2.
  destruct (for_each_post (seq 0 (count p n)) (fun _ => exec_all p body) (waited_env W)) with (st := st2)
    as (Hs3 & He3 & Hw3); [|exact Hs2|exact (Hw2 eq_refl)|].
  - intros _ s Hsafe_s Hw_s.
    destruct (exec_all_sound p body Hbody W after s Hafter Hsafe_s Hw_s) as (Hs4 & He4 & Hw4).
    split; [exact Hs4|]. split; [exact He4|].
    intros Hok. eapply waited_env_mono; [exact Hsub|exact (Hw4 Hok)].
  - split; [exact Hs3|]. split; [eapply extends_trans; eassumption|exact Hw3].
Qed.

Lemma exec_sound p s : sound_stmt p s.
Proof.
  induction s using stmt_nested_ind.
  - intros W W' st [= <-]. apply submit_sound.
  - intros W W' st [= <-]. apply wait_sound.
  - intros W W' st Hc. cbn [check] in Hc. destruct (decide (v ∈ W)); [|discriminate].
    injection Hc as <-. apply (use_sound p v EGetMetrics); auto.
  - intros W W' st Hc. cbn [check] in Hc. destruct (decide (v ∈ W)); [|discriminate].
    injection Hc as <-. apply (use_sound p v ERegisterModel); auto.
  - intros W W' st Hc. cbn [check] in Hc.
    pose proof (best_run_sound p v parent W st) as Hb.
    destruct (decide (parent ∈ W)); injection Hc as <-; exact Hb.
  - apply for_children_sound. assumption.
  - apply for_metrics_sound. assumption.
  - intros W W' st [= <-]. apply call_sound.
Qed.

(** A notebook that passes the check keeps its calls in order, whatever
    the platform answers and wherever a call raises. *)
Lemma checked_notebook_in_order p notebook :
  is_Some (check_all ∅ notebook) -> in_order (run_notebook p notebook).
Proof.
  intros [W Hc].
  assert (Forall (sound_stmt p) notebook) as Hall.
  { apply Forall_forall. intros s _. apply exec_sound. }
  destruct (exec_all_sound p notebook Hall ∅ W initial Hc) as ([Ho _] & _).
  - split; [|intros v r Hv; simpl in Hv; rewrite lookup_empty in Hv; discriminate].
    split; [|split]; intros i r Hi; simpl in Hi; rewrite lookup_nil in Hi; discriminate.
  - intros v Hv. set_solver.
  - exact Ho.
Qed.

Lemma notebooks_pass_check :
  forallb (fun notebook => bool_decide (is_Some (check_all ∅ notebook))) notebooks = true.
Proof. vm_compute. reflexivity. Qed.

Lemma notebook_in_order p notebook :
  notebook ∈ notebooks -> in_order (run_notebook p notebook).
Proof.
  intros Hin. apply checked_notebook_in_order.
  pose proof notebooks_pass_check as Hall. rewrite forallb_forall in Hall.
  apply list_elem_of_In in Hin. apply Hall in Hin.
  apply bool_decide_eq_true in Hin. exact Hin.
Qed.

Lemma waited_first_own_run use tr i n :
  waited_first use tr -> tr !! i = Some (use (Submitted n)) ->
  exists j : nat, (j < i)%nat /\ tr !! j = Some (EWaited (Submitted n)).
Proof.
  intros Hw Hi. destruct (Hw i _ Hi) as (j & w & Hj & Hwj & Hc).
  apply covers_submitted in Hc as ->. eauto.
Qed.

(** C4: in each of the six notebooks, whatever the platform answers and
    wherever a call raises an exception, every [get_metrics] call on a run
    comes after the return of [wait_for_completion] on that run when the
    notebook has submitted the run itself (a training experiment, a
    drift-monitor backfill), and after the return of the wait on the
    submitted parent when the run is a child the platform made. *)
Theorem metrics_read_after_wait (p : platform) :
  Forall (fun notebook =>
            waited_first EGetMetrics (run_notebook p notebook) /\
            forall i n : nat,
              run_notebook p notebook !! i = Some (EGetMetrics (Submitted n)) ->
              exists j : nat,
                (j < i)%nat /\
                run_notebook p notebook !! j = Some (EWaited (Submitted n)))
         notebooks.
Proof.
  apply Forall_forall. intros notebook Hin.
  destruct (notebook_in_order p notebook Hin) as (_ & Hget & _).
  split; [exact Hget|].
  intros i n Hi. exact (waited_first_own_run EGetMetrics _ i n Hget Hi).
Qed.

(** C6: in the notebooks that register a model, whatever the platform
    answers and wherever a call raises an exception, every wait comes after
    the submission of the run, and every [register_model] on a run comes
    after [wait_for_completion] on that run (on its submitted parent, for
    the best child of a sweep) has returned; when no call raises, the Train
    Models notebook submits, waits, reads the metrics and registers, twice. *)
Theorem model_registered_after_wait (p : platform) :
  Forall (fun notebook =>
            submitted_first (run_notebook p notebook) /\
            waited_first ERegisterModel (run_notebook p notebook) /\
            forall i n : nat,
              run_notebook p notebook !! i = Some (ERegisterModel (Submitted n)) ->
              exists j : nat,
                (j < i)%nat /\
                run_notebook p notebook !! j = Some (EWaited (Submitted n)))
         [train_models; tune_hyperparameters; work_with_compute] /\
  run_notebook obliging train_models
  = [ESubmit (Submitted 0); EWaited (Submitted 0);
     EGetMetrics (Submitted 0); EGetMetrics (Submitted 0); EGetMetrics (Submitted 0);
     ERegisterModel (Submitted 0);
     ESubmit (Submitted 1); EWaited (Submitted 1);
     EGetMetrics (Submitted 1); EGetMetrics (Submitted 1); EGetMetrics (Submitted 1);
     ERegisterModel (Submitted 1)].
Proof.
  split; [|vm_compute; reflexivity].
  apply Forall_forall. intros notebook Hin.
  assert (notebook ∈ notebooks) as Hnb.
  { unfold notebooks. set_solver. }
  destruct (notebook_in_order p notebook Hnb) as (Hsub & _ & Hreg).
  split; [exact Hsub|]. split; [exact Hreg|].
  intros i n Hi. exact (waited_first_own_run ERegisterModel _ i n Hreg Hi).
Qed.

End RunOrder.

(** ** The scoring cells *)

Section ScoringCells.
Import Py Scoring.

Variable dumps : pyval -> string.
Variable loads : string -> result pyval.


Lemma dict_get_first (before after : list (string * pyval)) (key : string) (v : pyval) :
  Forall (fun kv => fst kv <> key) before ->
  dict_get (before ++ (key, v) :: after) key = Some v.
Proof.
  induction 1 as [|[k w] before Hk _ IH]; cbn [app dict_get].
  - rewrite String.eqb_refl. reflexivity.
  - destruct (String.eqb_spec k key) as [->|_]; [contradiction|exact IH].
Qed.


(** The branch of the status code 200, step by step. *)
Lemma auto_predict_200 endpoint key response :
  status_code response = 200 ->
  auto_predict dumps loads endpoint key (Ok response) initial
  = let st := {| sent := [score_request dumps endpoint key]; stdout := [] |} in
    match loads (text response) with
    | Raise e => (Raise e, st)
    | Ok (PyStr inner) =>
        match loads inner with
        | Raise e => (Raise e, st)
        | Ok y =>
            match getitem_str y "result" with
            | Raise e => (Raise e, st)
            | Ok result =>
                match getitem_0 result with
                | Raise e => (Raise e, st)
                | Ok first =>
                    (Ok tt,
                     {| sent := [score_request dumps endpoint key];
                        stdout := [[ShowVal (PyStr "Prediction:"); ShowVal first];
                                   [ShowVal (PyStr (if eq_int first 1 then "Diabetic"
                                                    else "Not Diabetic"))]] |})
                end
            end
        end
    | Ok _ => (Raise TypeError, st)
    end.
Proof.
  intros Hs. unfold auto_predict, send, loads_twice, first_result, print,
    bind, modify, lift, initial.
  cbn [sent stdout app]. rewrite Hs. cbn [Z.eqb Pos.eqb]. cbv zeta.
  destruct (loads (text response)) as [[ | | | |inner| | ]|e]; try reflexivity.
  destruct (loads inner) as [y|e]; [|reflexivity].
  destruct (getitem_str y "result") as [result|e]; [|reflexivity].
  destruct (getitem_0 result) as [first|e]; [|reflexivity].
  destruct (eq_int first 1); reflexivity.
Qed.

Lemma auto_predict_200_result endpoint key response inner before result after :
  status_code response = 200 ->
  loads (text response) = Ok (PyStr inner) ->
  loads inner = Ok (PyDict (before ++ ("result", result) :: after)) ->
  Forall (fun kv => fst kv <> "result") before ->
  auto_predict dumps loads endpoint key (Ok response) initial
  = match getitem_0 result with
    | Raise e => (Raise e, {| sent := [score_request dumps endpoint key]; stdout := [] |})
    | Ok first =>
        (Ok tt,
         {| sent := [score_request dumps endpoint key];
            stdout := [[ShowVal (PyStr "Prediction:"); ShowVal first];
                       [ShowVal (PyStr (if eq_int first 1 then "Diabetic"
                                        else "Not Diabetic"))]] |})
    end.
Proof.
  intros Hs Hbody Hinner Hbefore. rewrite (auto_predict_200 _ _ _ Hs). cbv zeta.
  rewrite Hbody, Hinner. cbn [getitem_str]. rewrite (dict_get_first _ _ _ _ Hbefore).
  reflexivity.
Qed.


(** A character outside ASCII is taken whole: the two bytes of an e with
    an acute accent, not the first of them. *)
Remark first_character_two_bytes (tail : string) :
  first_character
    (String (Ascii.ascii_of_N 195) (String (Ascii.ascii_of_N 169) tail))
  = Some (String (Ascii.ascii_of_N 195) (String (Ascii.ascii_of_N 169) EmptyString)).
Proof. cbn. destruct tail; reflexivity. Qed.


(** C9: on a response with the status code 200 whose body holds, as JSON
    in a JSON string, an object whose field "result" is a list with the
    first element [first], the cell prints "Diabetic" if [first] equals the
    integer 1 and "Not Diabetic" for every other value of it.  Equality is
    Python's [==]: it holds of the [int] 1, and also of [True] and of a
    [float] that compares equal to 1.0, and of no other value. *)
Theorem diabetic_iff_first_is_one (endpoint key : string) (response : response)
    (inner : string) (before after : list (string * pyval)) (first : pyval)
    (rest : list pyval) :
  status_code response = 200 ->
  loads (text response) = Ok (PyStr inner) ->
  loads inner = Ok (PyDict (before ++ ("result", PyList (first :: rest)) :: after)) ->
  Forall (fun kv => fst kv <> "result") before ->
  let out := stdout (snd (auto_predict dumps loads endpoint key (Ok response) initial)) in
  let equals_one :=
    first = PyInt 1 \/ first = PyBool true \/
    exists f, first = PyFloat f /\
              SFcompare f (S754_finite false 4503599627370496 (-52)) = Some Eq in
  (equals_one ->
   out = [[ShowVal (PyStr "Prediction:"); ShowVal first]; [ShowVal (PyStr "Diabetic")]]) /\
  (~ equals_one ->
   out = [[ShowVal (PyStr "Prediction:"); ShowVal first]; [ShowVal (PyStr "Not Diabetic")]]).
Proof.
  intros Hs Hbody Hinner Hbefore. cbv zeta.
  rewrite (auto_predict_200_result _ _ _ _ _ _ _ Hs Hbody Hinner Hbefore).
  cbn [getitem_0 snd stdout].
  assert (eq_int first 1 = true <->
          first = PyInt 1 \/ first = PyBool true \/
          exists f, first = PyFloat f /\
                    SFcompare f (S754_finite false 4503599627370496 (-52)) = Some Eq) as Hone.
  { destruct first as [ |b|z|f|s|l|d]; cbn [eq_int].
    - split; [discriminate|]. intros [[=]|[[=]|(f & [=] & _)]].
    - destruct b; cbn [Z.eqb Pos.eqb]; split; auto; try discriminate.
      intros [[=]|[[=]|(f & [=] & _)]].
    - split.
      + intros H. apply Z.eqb_eq in H as ->. auto.
      + intros [[= ->]|[[=]|(f & [=] & _)]]. reflexivity.
    - change (Float64.of_Z 1) with (S754_finite false 4503599627370496 (-52)).
      unfold Float64.eqb, SFeqb. split.
      + intros H. right. right. exists f. split; [reflexivity|].
        destruct (SFcompare f _) as [[| |]|]; congruence.
      + intros [[=]|[[=]|(g & [= <-] & ->)]]. reflexivity.
    - split; [discriminate|]. intros [[=]|[[=]|(f & [=] & _)]].
    - split; [discriminate|]. intros [[=]|[[=]|(f & [=] & _)]].
    - split; [discriminate|]. intros [[=]|[[=]|(f & [=] & _)]]. }
  split.
  - intros Hyes. apply Hone in Hyes. rewrite Hyes. reflexivity.
  - intros Hno. destruct (eq_int first 1) eqn:E; [|reflexivity].
    exfalso. apply Hno, Hone. reflexivity.
Qed.

End ScoringCells.

Lemma diabetic_iff_first_is_one_witness :
  Scoring.stdout
    (snd (Scoring.auto_predict (fun _ => "payload") Scoring.sample_loads "endpoint" "key"
            (Ok Scoring.sample_response) Scoring.initial))
  = [[Scoring.ShowVal (Py.PyStr "Prediction:"); Scoring.ShowVal (Py.PyInt 1)];
     [Scoring.ShowVal (Py.PyStr "Diabetic")]].
Proof.
  apply (diabetic_iff_first_is_one (fun _ => "payload") Scoring.sample_loads
           "endpoint" "key" Scoring.sample_response "inner" [] [] (Py.PyInt 1) []).
  - reflexivity.
  - reflexivity.
  - reflexivity.
  - constructor.
  - left. reflexivity.
Defined.


(** ** The exception handlers *)

Section Handlers.
Import Compute.








End Handlers.

(** ** The training scripts *)

Section FeatureSelection.
Import Pandas Training.

Lemma select_spec (df : frame) (names : list string) (cols : list column) :
  select df names = Ok cols <-> Forall2 (fun name c => df !! name = Some c) names cols.
Proof.
  unfold select.
  assert (Forall2 (fun name c => df !! name = Some c) names cols
          <-> filter (fun name => df !! name = None) names = []
              /\ omap (fun name => df !! name) names = cols) as ->.
  { revert cols. induction names as [|name names IH]; intros cols.
    - split.
      + intros H. apply Forall2_nil_inv_l in H as ->. auto.
      + intros [_ <-]. constructor.
    - rewrite filter_cons. cbn [omap list_omap]. split.
      + intros H. apply Forall2_cons_inv_l in H as (c & cs & Hc & Hcs & ->).
        apply IH in Hcs as [Hf <-]. rewrite Hc.
        destruct (decide (Some c = None)) as [[=]|_]. auto.
      + destruct (df !! name) as [c|] eqn:Hc.
        * destruct (decide (Some c = None)) as [[=]|_]. intros [Hf <-].
          constructor; [exact Hc|]. apply IH. auto.
        * destruct (decide (None = None)) as [_|N]; [|contradiction]. intros [[=] _]. }
  destruct (filter _ names) as [|m ms]; split.
  - intros [= <-]. auto.
  - intros [_ <-]. reflexivity.
  - discriminate.
  - intros [[=] _].
Qed.

Lemma select_raises (df : frame) (names : list string) (e : exn) :
  select df names = Raise e <->
  filter (fun name => df !! name = None) names <> [] /\
  e = KeyErrorNotInIndex (filter (fun name => df !! name = None) names).
Proof.
  unfold select. destruct (filter _ names) as [|m ms]; split.
  - discriminate.
  - intros [N _]. contradiction.
  - intros [= <-]. split; [discriminate|reflexivity].
  - intros [_ ->]. reflexivity.
Qed.

Lemma select_agree (df df' : frame) (names : list string) :
  (forall name, name ∈ names -> df' !! name = df !! name) ->
  select df' names = select df names.
Proof.
  intros Hagree. unfold select.
  assert (filter (fun name => df' !! name = None) names
          = filter (fun name => df !! name = None) names) as ->.
  { induction names as [|name names IH]; [reflexivity|].
    rewrite !filter_cons, (Hagree name) by set_solver.
    rewrite IH; [reflexivity|]. intros n Hn. apply Hagree. set_solver. }
  assert (omap (fun name => df' !! name) names = omap (fun name => df !! name) names) as ->;
    [|reflexivity].
  induction names as [|name names IH]; [reflexivity|].
  cbn [omap list_omap]. rewrite (Hagree name) by set_solver.
  rewrite IH; [reflexivity|]. intros n Hn. apply Hagree. set_solver.
Qed.

Lemma features_and_labels_agree (df df' : frame) :
  (forall name, name ∈ label_name :: feature_names -> df' !! name = df !! name) ->
  features_and_labels df' = features_and_labels df.
Proof.
  intros Hagree. unfold features_and_labels.
  rewrite (select_agree df df'); [|intros n Hn; apply Hagree; set_solver].
  unfold getitem. rewrite Hagree by set_solver. reflexivity.
Qed.

Lemma features_and_labels_spec (diabetes : frame) X y :
  features_and_labels diabetes = Ok (X, y) <->
  exists cols label,
    Forall2 (fun name c => diabetes !! name = Some c) feature_names cols /\
    diabetes !! label_name = Some label /\
    X = values cols /\ y = scalars label.
Proof.
  unfold features_and_labels, getitem. split.
  - destruct (select diabetes feature_names) as [cols|e] eqn:Hs; [|discriminate].
    destruct (diabetes !! label_name) as [label|] eqn:Hl; [|discriminate].
    intros [= <- <-]. exists cols, label. apply select_spec in Hs. auto.
  - intros (cols & label & Hcols & Hl & -> & ->).
    apply select_spec in Hcols. rewrite Hcols, Hl. reflexivity.
Qed.

(** The entry of row [i] and column [c] in [values cols]. *)
Lemma values_entry (cols : list column) (i j : nat) (row : list scalar) (c : column) :
  values cols !! i = Some row -> cols !! j = Some c ->
  length row = length cols /\
  match c with
  | ColFloat fs => forall f, fs !! i = Some f -> row !! j = Some (SFloat f)
  | ColInt zs =>
      forall z, zs !! i = Some z ->
        row !! j = Some (if existsb is_float_column cols then SFloat (Float64.of_Z z)
                         else SInt z)
  end.
Proof.
  unfold values. intros Hrow Hc.
  rewrite list_lookup_fmap in Hrow.
  destruct (seq 0 (rows_count cols) !! i) as [i'|] eqn:Hi; [|discriminate].
  apply lookup_seq in Hi as [-> _]. injection Hrow as <-.
  split; [apply length_map|].
  rewrite list_lookup_fmap, Hc. cbn [fmap option_fmap option_map].
  destruct c as [zs|fs].
  - intros z Hz. cbn [scalars]. rewrite (nth_lookup_Some _ i (SInt 0) (SInt z)).
    + destruct (existsb is_float_column cols); reflexivity.
    + rewrite list_lookup_fmap, Hz. reflexivity.
  - intros f Hf. cbn [scalars]. rewrite (nth_lookup_Some _ i (SInt 0) (SFloat f)).
    + assert (existsb is_float_column cols = true) as ->; [|reflexivity].
      apply existsb_exists. exists (ColFloat fs). split; [|reflexivity].
      apply list_elem_of_In, list_elem_of_lookup. eauto.
    + rewrite list_lookup_fmap, Hf. reflexivity.
Qed.

(** C5: both training scripts build [X] from exactly the eight columns
    Pregnancies, PlasmaGlucose, DiastolicBloodPressure, TricepsThickness,
    SerumInsulin, BMI, DiabetesPedigree and Age, and [y] from the column
    Diabetic.  [X] has one row of eight entries per record; the entry of
    row [i] in place [j] is the entry of row [i] of the [j]-th of these
    columns, an integer being shown as a float as soon as one of the eight
    columns holds floats; [y] holds the entries of Diabetic, row by row.
    The selection returns whenever the nine columns are there, and it reads
    nothing else: two frames that agree on the nine columns give the same
    [X] and [y], so replacing or dropping PatientID changes neither. *)
Theorem features_are_the_eight_columns :
  (forall (diabetes : frame) X y,
      features_and_labels diabetes = Ok (X, y) ->
      exists c1 c2 c3 c4 c5 c6 c7 c8 label,
        diabetes !! "Pregnancies" = Some c1 /\
        diabetes !! "PlasmaGlucose" = Some c2 /\
        diabetes !! "DiastolicBloodPressure" = Some c3 /\
        diabetes !! "TricepsThickness" = Some c4 /\
        diabetes !! "SerumInsulin" = Some c5 /\
        diabetes !! "BMI" = Some c6 /\
        diabetes !! "DiabetesPedigree" = Some c7 /\
        diabetes !! "Age" = Some c8 /\
        diabetes !! "Diabetic" = Some label /\
        y = match label with
            | ColInt zs => map SInt zs
            | ColFloat fs => map SFloat fs
            end /\
        length X = match c1 with
                   | ColInt zs => length zs
                   | ColFloat fs => length fs
                   end /\
        forall (i j : nat) (row : list scalar) (c : column),
          X !! i = Some row ->
          [c1; c2; c3; c4; c5; c6; c7; c8] !! j = Some c ->
          length row = 8%nat /\
          match c with
          | ColFloat fs => forall f, fs !! i = Some f -> row !! j = Some (SFloat f)
          | ColInt zs =>
              forall z, zs !! i = Some z ->
                row !! j
                = Some (if existsb (fun c' => match c' with
                                              | ColFloat _ => true
                                              | ColInt _ => false
                                              end)
                                   [c1; c2; c3; c4; c5; c6; c7; c8]
                        then SFloat (Float64.of_Z z)
                        else SInt z)
          end) /\
  (forall diabetes : frame,
      (forall name,
          name ∈ ["Pregnancies"; "PlasmaGlucose"; "DiastolicBloodPressure";
                  "TricepsThickness"; "SerumInsulin"; "BMI"; "DiabetesPedigree"; "Age";
                  "Diabetic"] ->
          is_Some (diabetes !! name)) ->
      exists X y, features_and_labels diabetes = Ok (X, y)) /\
  (forall diabetes diabetes' : frame,
      (forall name,
          name ∈ ["Pregnancies"; "PlasmaGlucose"; "DiastolicBloodPressure";
                  "TricepsThickness"; "SerumInsulin"; "BMI"; "DiabetesPedigree"; "Age";
                  "Diabetic"] ->
          diabetes' !! name = diabetes !! name) ->
      features_and_labels diabetes' = features_and_labels diabetes) /\
  (forall (diabetes : frame) (patient_ids : column),
      features_and_labels (<["PatientID" := patient_ids]> diabetes)
      = features_and_labels diabetes) /\
  (forall diabetes : frame,
      features_and_labels (delete "PatientID" diabetes) = features_and_labels diabetes).
Proof.
  split; [|split; [|split; [|split]]].
  - intros diabetes X y H.
    apply features_and_labels_spec in H as (cols & label & Hcols & Hl & -> & ->).
    unfold feature_names in Hcols.
    do 8 (apply Forall2_cons_inv_l in Hcols as (? & ? & ? & Hcols & ->)).
    apply Forall2_nil_inv_l in Hcols as ->.
    do 8 eexists. exists label.
    do 8 (split; [eassumption|]). split; [exact Hl|].
    split; [destruct label; reflexivity|].
    split.
    { unfold values. rewrite length_map, length_seq. cbn [rows_count].
      match goal with |- length (scalars ?c) = _ => destruct c; apply length_map end. }
    intros i j row c Hrow Hc.
    destruct (values_entry _ i j row c Hrow Hc) as [Hlen Hentry].
    split; [exact Hlen|exact Hentry].
  - intros diabetes Hall.
    assert (exists cols, select diabetes feature_names = Ok cols) as [cols Hcols].
    { destruct (select diabetes feature_names) as [cols|e] eqn:Hs; [eauto|].
      apply select_raises in Hs as [Hne _]. exfalso. apply Hne.
      destruct (filter _ feature_names) as [|name rest] eqn:Hf; [reflexivity|].
      assert (name ∈ filter (fun name => diabetes !! name = None) feature_names) as Hin
        by (rewrite Hf; left).
      apply list_elem_of_filter in Hin as [Hnone Hin].
      destruct (Hall name) as [c Hc]; [revert Hin; unfold feature_names; set_solver|].
      congruence. }
    destruct (Hall "Diabetic") as [label Hl]; [set_solver|].
    unfold features_and_labels, getitem, label_name. rewrite Hcols, Hl. eauto.
  - intros diabetes diabetes' Hagree. apply features_and_labels_agree.
    intros name Hname. apply Hagree. revert Hname.
    unfold feature_names, label_name. set_solver.
  - intros diabetes patient_ids. apply features_and_labels_agree.
    intros name Hname. apply lookup_insert_ne.
    intros <-. revert Hname. unfold feature_names, label_name. set_solver.
  - intros diabetes. apply features_and_labels_agree.
    intros name Hname. apply lookup_delete_ne.
    intros <-. revert Hname. unfold feature_names, label_name. set_solver.
Qed.

End FeatureSelection.

Section TrainingScripts.
Import Pandas Training.

Variable rng : Type.
Variable RandomState : Z -> rng.
Variable permutation : rng -> nat -> list nat.
Variable model : Type.
Variable fit : spec_float -> list (list scalar) -> list scalar -> result model.
Variable predict : model -> list scalar -> scalar.
Variable predict_proba_1 : model -> list scalar -> spec_float.
Variable roc_auc_score : list scalar -> list spec_float -> result spec_float.
Variable raises : call -> option exn.

Abbreviation train_test_split := (train_test_split rng RandomState permutation).
Abbreviation train_and_log :=
  (train_and_log model fit predict predict_proba_1 roc_auc_score raises).
Abbreviation diabetes_training :=
  (diabetes_training rng RandomState permutation model fit predict predict_proba_1
     roc_auc_score raises).
Abbreviation diabetes_training_params :=
  (diabetes_training_params rng RandomState permutation model fit predict predict_proba_1
     roc_auc_score raises).
Abbreviation diabetes_training_split := (diabetes_training_split rng RandomState permutation).
Abbreviation three_metrics :=
  (three_metrics rng RandomState permutation model fit predict predict_proba_1 roc_auc_score).
Abbreviation diabetes_training_params_split :=
  (diabetes_training_params_split rng RandomState permutation).

Lemma take_rows_length {A} (a : list A) (indices : list nat) (xs : list A) :
  take_rows a indices = Ok xs -> length xs = length indices.
Proof.
  revert xs. induction indices as [|i indices IH]; intros xs; cbn [take_rows].
  - intros [= <-]. reflexivity.
  - destruct (a !! i); [|discriminate].
    destruct (take_rows a indices) as [ys|]; [|discriminate].
    intros [= <-]. simpl. rewrite (IH ys eq_refl). reflexivity.
Qed.

Lemma split_test_lengths X y test_size random_state global_rng s :
  train_test_split X y test_size random_state global_rng = Ok s ->
  length (X_test s) = length (y_test s).
Proof.
  unfold Training.train_test_split.
  destruct (negb _); [discriminate|].
  destruct (_ || _); [discriminate|].
  destruct (Float64.ceil _) as [n_test|]; [|discriminate].
  destruct (_ =? 0)%nat; [discriminate|].
  destruct (take_rows X _) as [Xtr|] eqn:H1; [|discriminate].
  destruct (take_rows X _) as [Xte|] eqn:H2 in |- *; [|discriminate].
  destruct (take_rows y _) as [ytr|] eqn:H3; [|discriminate].
  destruct (take_rows y _) as [yte|] eqn:H4 in |- *; [|discriminate].
  intros [= <-]. simpl.
  rewrite (take_rows_length _ _ _ H2), (take_rows_length _ _ _ H4). reflexivity.
Qed.

(** numpy's [==] on two entries holds exactly when they hold the same
    number. *)
Lemma scalar_eqb_same_number (a b : scalar) :
  scalar_eqb a b = true <-> same_number a b.
Proof.
  destruct a as [x|f], b as [y|g]; cbn [scalar_eqb same_number to_float];
    [apply Z.eqb_eq| | |];
    unfold Float64.eqb, SFeqb;
    match goal with |- context [SFcompare ?u ?v] =>
      destruct (SFcompare u v) as [[| |]|] end;
    split; congruence.
Qed.

Lemma count_correct (g : list scalar -> scalar) (X : list (list scalar)) (y : list scalar) :
  length (filter (fun b : bool => b = true) (zip_with scalar_eqb (map g X) y))
  = length (filter (fun xy => same_number (g (fst xy)) (snd xy)) (zip X y)).
Proof.
  revert y. induction X as [|x X IH]; intros [|l y]; try reflexivity.
  cbn [map zip zip_with]. rewrite !filter_cons. cbn [fst snd].
  pose proof (scalar_eqb_same_number (g x) l) as Heq.
  destruct (scalar_eqb (g x) l).
  - destruct (decide (same_number (g x) l)) as [_|N]; [|exfalso; apply N, Heq; reflexivity].
    destruct (decide (true = true)) as [_|N]; [|contradiction].
    simpl. f_equal. apply IH.
  - destruct (decide (same_number (g x) l)) as [Y|_];
      [apply Heq in Y; discriminate|].
    destruct (decide (false = true)) as [[=]|_]. apply IH.
Qed.

Lemma np_average_correct_rows (m : model) (s : split) :
  length (X_test s) = length (y_test s) ->
  np_average (zip_with scalar_eqb (map (predict m) (X_test s)) (y_test s))
  = Float64.div (Float64.of_Z (Z.of_nat (correct_rows model predict m s)))
                (Float64.of_Z (Z.of_nat (length (y_test s)))).
Proof.
  intros Hlen. unfold np_average, correct_rows.
  rewrite count_correct. rewrite length_zip_with, length_map, Hlen, Nat.min_id.
  reflexivity.
Qed.

(** The script from the regularization rate on, call by call. *)
Lemma train_and_log_unfold reg s r0 :
  train_and_log reg s r0
  = let r1 := {| metrics := metrics r0 ++ [("Regularization Rate", Py.PyFloat reg)];
                 stdout := stdout r0 ++
                   [[say "Training a logistic regression model with regularization rate of";
                     Scoring.ShowVal (Py.PyFloat reg)]];
                 outputs := outputs r0; completed := completed r0 |} in
    match inverse reg with
    | Raise e => (Raise e, r1)
    | Ok C =>
    match fit C (X_train s) (y_train s) with
    | Raise e => (Raise e, r1)
    | Ok m =>
    match raises Predict with
    | Some e => (Raise e, r1)
    | None =>
    let acc := np_average (zip_with scalar_eqb (map (predict m) (X_test s)) (y_test s)) in
    let r2 := {| metrics := metrics r1 ++ [("Accuracy", Py.PyFloat acc)];
                 stdout := stdout r1 ++ [[say "Accuracy:"; Scoring.ShowVal (Py.PyFloat acc)]];
                 outputs := outputs r0; completed := completed r0 |} in
    match raises PredictProba with
    | Some e => (Raise e, r2)
    | None =>
    match roc_auc_score (y_test s) (map (predict_proba_1 m) (X_test s)) with
    | Raise e => (Raise e, r2)
    | Ok auc =>
    let r3 := {| metrics := metrics r2 ++ [("AUC", Py.PyFloat auc)];
                 stdout := stdout r2 ++ [[Scoring.ShowFormat "AUC: {}" [Py.PyFloat auc]]];
                 outputs := outputs r0; completed := completed r0 |} in
    match raises Makedirs with
    | Some e => (Raise e, r3)
    | None =>
    match raises Dump with
    | Some e => (Raise e, r3)
    | None =>
    let r4 := {| metrics := metrics r3; stdout := stdout r3;
                 outputs := outputs r0 ++ ["outputs/diabetes_model.pkl"];
                 completed := completed r0 |} in
    match raises Complete with
    | Some e => (Raise e, r4)
    | None => (Ok tt, {| metrics := metrics r3; stdout := stdout r3;
                         outputs := outputs r4; completed := true |})
    end end end end end end end end.
Proof.
  unfold Training.train_and_log, makedirs, dump, complete, attempt,
    bind, print, log, modify, lift, raise, ret.
  cbv zeta. cbn [metrics stdout outputs completed].
  destruct (inverse reg) as [C|e]; [|reflexivity].
  destruct (fit C (X_train s) (y_train s)) as [m|e]; [|reflexivity].
  destruct (raises Predict) as [e|]; [reflexivity|].
  destruct (raises PredictProba) as [e|]; [reflexivity|].
  destruct (roc_auc_score _ _) as [auc|e]; [|reflexivity].
  destruct (raises Makedirs) as [e|]; [reflexivity|].
  destruct (raises Dump) as [e|]; [reflexivity|].
  destruct (raises Complete) as [e|]; reflexivity.
Qed.

Lemma train_and_log_ok reg s r0 r :
  train_and_log reg s r0 = (Ok tt, r) ->
  exists m auc,
    Float64.eqb reg (Float64.of_Z 0) = false /\
    fit (Float64.div (Float64.of_Z 1) reg) (X_train s) (y_train s) = Ok m /\
    roc_auc_score (y_test s) (map (predict_proba_1 m) (X_test s)) = Ok auc /\
    metrics r
    = metrics r0 ++
      [("Regularization Rate", Py.PyFloat reg);
       ("Accuracy",
        Py.PyFloat (np_average (zip_with scalar_eqb (map (predict m) (X_test s)) (y_test s))));
       ("AUC", Py.PyFloat auc)].
Proof.
  rewrite train_and_log_unfold. cbv zeta. unfold inverse.
  destruct (Float64.eqb reg (Float64.of_Z 0)) eqn:Hreg; [discriminate|].
  destruct (fit _ (X_train s) (y_train s)) as [m|e] eqn:Hm; [|discriminate].
  destruct (raises Predict) as [e|]; [discriminate|].
  destruct (raises PredictProba) as [e|]; [discriminate|].
  destruct (roc_auc_score _ _) as [auc|e] eqn:Hauc; [|discriminate].
  destruct (raises Makedirs) as [e|]; [discriminate|].
  destruct (raises Dump) as [e|]; [discriminate|].
  destruct (raises Complete) as [e|]; [discriminate|].
  intros [= <-]. exists m, auc. cbn [metrics]. rewrite <- !app_assoc.
  repeat split; try reflexivity; assumption.
Qed.

Lemma train_and_log_names reg s r0 :
  exists names,
    map fst (metrics (snd (train_and_log reg s r0))) = map fst (metrics r0) ++ names /\
    names `prefix_of` metric_names.
Proof.
  rewrite train_and_log_unfold. cbv zeta.
  assert (["Regularization Rate"] `prefix_of` metric_names) as P1 by (eexists; reflexivity).
  assert (["Regularization Rate"; "Accuracy"] `prefix_of` metric_names) as P2
    by (eexists; reflexivity).
  destruct (inverse reg) as [C|e];
    [|exists ["Regularization Rate"]; cbn [snd metrics]; rewrite map_app; auto].
  destruct (fit C (X_train s) (y_train s)) as [m|e];
    [|exists ["Regularization Rate"]; cbn [snd metrics]; rewrite map_app; auto].
  destruct (raises Predict) as [e|];
    [exists ["Regularization Rate"]; cbn [snd metrics]; rewrite map_app; auto|].
  destruct (raises PredictProba) as [e|];
    [exists ["Regularization Rate"; "Accuracy"]; cbn [snd metrics];
     rewrite !map_app, <- !app_assoc; auto|].
  destruct (roc_auc_score _ _) as [auc|e];
    [|exists ["Regularization Rate"; "Accuracy"]; cbn [snd metrics];
      rewrite !map_app, <- !app_assoc; auto].
  exists metric_names.
  destruct (raises Makedirs) as [e|]; [|destruct (raises Dump) as [e|];
    [|destruct (raises Complete) as [e|]]];
    cbn [snd metrics]; rewrite !map_app, <- !app_assoc; auto.
Qed.

Lemma script_ok reg csv g r :
  (let! s := lift (diabetes_training_split csv g) in train_and_log reg s)
    {| metrics := []; stdout := [[say "Loading Data..."]]; outputs := [];
       completed := false |} = (Ok tt, r) ->
  three_metrics reg csv g r.
Proof.
  unfold bind, lift.
  destruct (diabetes_training_split csv g) as [s|e] eqn:Hs; [|discriminate].
  intros Hrun. apply train_and_log_ok in Hrun as (m & auc & Hreg & Hm & Hauc & Hmet).
  exists s, m, auc. repeat split; try assumption.
  rewrite Hmet. cbn [metrics app]. rewrite np_average_correct_rows; [reflexivity|].
  unfold Training.diabetes_training_split in Hs.
  destruct csv as [df|]; [|discriminate].
  destruct (features_and_labels df) as [[X y]|]; [|discriminate].
  eapply split_test_lengths. exact Hs.
Qed.

Lemma script_names reg csv g :
  map fst (metrics (snd ((let! s := lift (diabetes_training_split csv g) in train_and_log reg s)
    {| metrics := []; stdout := [[say "Loading Data..."]]; outputs := [];
       completed := false |}))) `prefix_of` metric_names.
Proof.
  unfold bind, lift.
  destruct (diabetes_training_split csv g) as [s|e]; [|simpl; apply prefix_nil].
  destruct (train_and_log_names reg s
              {| metrics := []; stdout := [[say "Loading Data..."]]; outputs := [];
                 completed := false |}) as (names & -> & Hp).
  exact Hp.
Qed.

(** C7, amended: an execution of either training script that runs to its
    end has logged exactly three metrics, 'Regularization Rate', 'Accuracy'
    and 'AUC', in this order, each a float: the rate, the number of test
    rows whose label the fitted model predicts divided by the number of
    test rows (the mean of the indicator that the prediction equals the
    true label), and the score; an execution that an exception ends has
    logged the first none, one or two of them, or all three when the
    exception comes after the last [run.log], and nothing else. *)
Theorem training_logs_three_metrics (reg_rate : option spec_float)
    (csv : result frame) (global_rng : rng) :
  (forall r, diabetes_training csv global_rng new_run = (Ok tt, r) ->
             three_metrics (Float64.literal 1 100) csv global_rng r) /\
  (forall r, diabetes_training_params reg_rate csv global_rng new_run = (Ok tt, r) ->
             three_metrics (match reg_rate with
                            | Some rate => rate
                            | None => Float64.literal 1 100
                            end) csv global_rng r) /\
  map fst (metrics (snd (diabetes_training csv global_rng new_run)))
    `prefix_of` ["Regularization Rate"; "Accuracy"; "AUC"] /\
  map fst (metrics (snd (diabetes_training_params reg_rate csv global_rng new_run)))
    `prefix_of` ["Regularization Rate"; "Accuracy"; "AUC"].
Proof.
  split; [|split; [|split]].
  - intros r. apply script_ok.
  - intros r. destruct reg_rate; apply script_ok.
  - apply script_names.
  - destruct reg_rate; apply script_names.
Qed.

(** C10: both training scripts call [train_test_split] with
    [test_size=0.30] and [random_state=0]; the split, and with it the whole
    run, is the same in two executions on the same [diabetes.csv], whatever
    the state of numpy's global generator, and the plain and the
    parameterized script train and test on the same rows. *)
Theorem split_is_deterministic (csv : result frame) (g1 g2 : rng)
    (reg_rate : option spec_float) :
  (forall diabetes X y,
      csv = Ok diabetes -> features_and_labels diabetes = Ok (X, y) ->
      diabetes_training_split csv g1
      = train_test_split X y (Float64.literal 30 100) (Some 0) g1 /\
      diabetes_training_params_split csv g1
      = train_test_split X y (Float64.literal 30 100) (Some 0) g1) /\
  diabetes_training_split csv g1 = diabetes_training_split csv g2 /\
  diabetes_training_params_split csv g1 = diabetes_training_params_split csv g2 /\
  diabetes_training_params_split csv g1 = diabetes_training_split csv g2 /\
  diabetes_training csv g1 new_run = diabetes_training csv g2 new_run /\
  diabetes_training_params reg_rate csv g1 new_run
  = diabetes_training_params reg_rate csv g2 new_run.
Proof.
  assert (diabetes_training_split csv g1 = diabetes_training_split csv g2) as Hsplit.
  { unfold Training.diabetes_training_split. destruct csv as [df|e]; [|reflexivity].
    destruct (features_and_labels df) as [[X y]|e]; reflexivity. }
  split.
  { intros diabetes X y -> HXy. unfold Training.diabetes_training_split,
      Training.diabetes_training_params_split. rewrite HXy. auto. }
  split; [exact Hsplit|]. split; [exact Hsplit|]. split; [exact Hsplit|].
  assert (diabetes_training_params_split csv g1 = diabetes_training_params_split csv g2)
    as Hparams by exact Hsplit.
  unfold Training.diabetes_training, Training.diabetes_training_params, bind, lift. simpl.
  rewrite Hsplit, Hparams. auto.
Qed.

End TrainingScripts.

(** On four patients and a model that predicts 0 for every row the plain
    script logs the rate 0.01, the accuracy 2/2 and the score. *)
Lemma training_logs_three_metrics_witness :
  Training.three_metrics unit (fun _ => tt) (fun _ n => seq 0 n) unit
    (fun _ _ _ => Ok tt) (fun _ _ => Training.SInt 0) (fun _ _ => Float64.literal 1 2)
    (fun _ _ => Ok (Float64.literal 1 2))
    (Float64.literal 1 100) (Ok Training.sample_diabetes) tt
    (snd (Training.sample_training (Ok Training.sample_diabetes) Training.new_run)).
Proof.
  apply (proj1 (training_logs_three_metrics unit (fun _ => tt) (fun _ n => seq 0 n) unit
                  (fun _ _ _ => Ok tt) (fun _ _ => Training.SInt 0)
                  (fun _ _ => Float64.literal 1 2) (fun _ _ => Ok (Float64.literal 1 2))
                  (fun _ => None) None (Ok Training.sample_diabetes) tt)).
  vm_compute. reflexivity.
Defined.

(** C7, as stated, fails: not each execution logs three metrics.  With
    [--reg_rate 0] the parameterized script logs the rate and raises at
    [1/reg], before it logs 'Accuracy' and 'AUC'; when [model.predict_proba]
    raises the plain script has logged two. *)
Lemma zero_rate_logs_one_metric :
  exists r r',
    Training.diabetes_training_params unit (fun _ => tt) (fun _ n => seq 0 n) unit
      (fun _ _ _ => Ok tt) (fun _ _ => Training.SInt 0) (fun _ _ => Float64.literal 1 2)
      (fun _ _ => Ok (Float64.literal 1 2)) (fun _ => None)
      (Some (Float64.of_Z 0)) (Ok Training.sample_diabetes) tt Training.new_run
    = (Raise ZeroDivisionError, r) /\
    map fst (Training.metrics r) = ["Regularization Rate"] /\
    Training.diabetes_training unit (fun _ => tt) (fun _ n => seq 0 n) unit
      (fun _ _ _ => Ok tt) (fun _ _ => Training.SInt 0) (fun _ _ => Float64.literal 1 2)
      (fun _ _ => Ok (Float64.literal 1 2))
      (fun c => match c with Training.PredictProba => Some TypeError | _ => None end)
      (Ok Training.sample_diabetes) tt Training.new_run
    = (Raise TypeError, r') /\
    map fst (Training.metrics r') = ["Regularization Rate"; "Accuracy"].
Proof.
  eexists _, _. split; [vm_compute; reflexivity|]. split; [reflexivity|].
  split; [vm_compute; reflexivity|]. reflexivity.
Qed.

(** Without [random_state] the split follows numpy's global generator:
    two runs on the same rows can test on different ones. *)
Remark unseeded_split_follows_global_rng :
  let permutation := fun (reversed : bool) (n : nat) =>
                       if reversed then rev (seq 0 n) else seq 0 n in
  let X := [[Training.SInt 1]; [Training.SInt 2]; [Training.SInt 3]; [Training.SInt 4]] in
  let y := [Training.SInt 0; Training.SInt 0; Training.SInt 1; Training.SInt 1] in
  Training.train_test_split bool (fun _ => false) permutation X y
    (Float64.literal 30 100) None false
  <> Training.train_test_split bool (fun _ => false) permutation X y
       (Float64.literal 30 100) None true.
Proof. vm_compute. intros [=]. Qed.

(** ** Local computations *)

Section DriftDeterminism.
Import Pandas Drift.

Lemma modify_data_depends_on_data st1 st2 :
  data st1 = data st2 ->
  fst (modify_data st1) = fst (modify_data st2) /\
  data (snd (modify_data st1)) = data (snd (modify_data st2)).
Proof.
  destruct st1 as [df1 fp1 dk1 cr1], st2 as [df2 fp2 dk2 cr2]. simpl. intros ->.
  unfold modify_data, column_of, set_column, bind, get, lift, modify. simpl.
  destruct (getitem df2 "Pregnancies") as [p|e]; simpl; [|auto].
  destruct (getitem _ "Age") as [a|e]; simpl; [|auto].
  destruct (astype_int _) as [a'|e]; simpl; [|auto].
  destruct (getitem _ "BMI") as [b|e]; simpl; auto.
Qed.

Lemma loop_body_unfold clock weekno st :
  loop_body clock weekno st
  = let file_path := DiabetesCsv (clock (clock_reads st) - 7 * weekno) in
    match modify_data {| data := data st; file_paths := file_paths st; disk := disk st;
                         clock_reads := S (clock_reads st) |} with
    | (Ok _, s) =>
        (Ok tt, {| data := data s; file_paths := file_paths s ++ [file_path];
                   disk := <[file_path := csv_of (data s)]> (disk s);
                   clock_reads := clock_reads s |})
    | (Raise e, s) => (Raise e, s)
    end.
Proof.
  unfold loop_body, today, to_csv, append_path, bind, get, modify, ret. simpl.
  destruct (modify_data _) as [[[]|e] s]; reflexivity.
Qed.

Lemma loop_body_depends_on_data clock1 clock2 weekno st1 st2 :
  data st1 = data st2 ->
  fst (loop_body clock1 weekno st1) = fst (loop_body clock2 weekno st2) /\
  data (snd (loop_body clock1 weekno st1)) = data (snd (loop_body clock2 weekno st2)).
Proof.
  intros Hdata. rewrite !loop_body_unfold. cbv zeta.
  set (s1 := {| data := data st1; file_paths := file_paths st1; disk := disk st1;
                clock_reads := S (clock_reads st1) |}).
  set (s2 := {| data := data st2; file_paths := file_paths st2; disk := disk st2;
                clock_reads := S (clock_reads st2) |}).
  destruct (modify_data_depends_on_data s1 s2 Hdata) as [Hr Hd].
  destruct (modify_data s1) as [[[]|e1] s1'], (modify_data s2) as [[[]|e2] s2'];
    simpl in *; try discriminate; auto.
Qed.

Lemma for_each_depends_on_data clock1 clock2 ws :
  forall st1 st2,
    data st1 = data st2 ->
    fst (for_each ws (loop_body clock1) st1) = fst (for_each ws (loop_body clock2) st2) /\
    data (snd (for_each ws (loop_body clock1) st1))
    = data (snd (for_each ws (loop_body clock2) st2)).
Proof.
  induction ws as [|w ws IH]; intros st1 st2 Hdata; [simpl; auto|].
  cbn [for_each]. unfold bind.
  destruct (loop_body_depends_on_data clock1 clock2 w st1 st2 Hdata) as [Hr Hd].
  destruct (loop_body clock1 w st1) as [[[]|e1] s1], (loop_body clock2 w st2) as [[[]|e2] s2];
    simpl in *; try discriminate; auto.
Qed.

End DriftDeterminism.

Section LocalCore.
Import Core.

Lemma prediction_lines_depend_on_response
    (dumps1 dumps2 : Py.pyval -> string) (loads : string -> result Py.pyval)
    (endpoint1 key1 endpoint2 key2 : string) (response : Scoring.response) :
  Scoring.stdout
    (snd (Scoring.auto_predict dumps1 loads endpoint1 key1 (Ok response) Scoring.initial))
  = Scoring.stdout
      (snd (Scoring.auto_predict dumps2 loads endpoint2 key2 (Ok response) Scoring.initial)).
Proof.
  unfold Scoring.auto_predict, Scoring.send, Scoring.print, bind, modify, lift. simpl.
  destruct (Scoring.status_code response =? 200); [|reflexivity].
  destruct (Scoring.loads_twice loads (Scoring.text response)) as [y|e]; [|reflexivity].
  destruct (Scoring.first_result y) as [first|e]; [|reflexivity].
  destruct (Py.eq_int first 1); reflexivity.
Qed.

(** C2, amended: the cells hold locally computed, deterministic functions
    for which properties can be stated: the frame the drift loop builds is
    determined by [diabetes2.csv] (not by the clock or the disk), the lines
    the scoring cell prints by the response, [X] and [y] by the eight
    feature columns and the label column (two frames that agree on these
    nine give the same [X] and [y]), and the train and test rows by
    [diabetes.csv]. *)
Theorem local_computations_are_functions (c : local_computation) :
  input_determines_output c.
Proof.
  destruct c; cbn [input_determines_output].
  - intros clock1 clock2 diabetes2 files1 files2. unfold Drift.generate.
    apply for_each_depends_on_data. reflexivity.
  - apply prediction_lines_depend_on_response.
  - intros diabetes1 diabetes2 Hagree. apply features_and_labels_agree.
    intros name Hname. apply Hagree. revert Hname.
    unfold Training.feature_names, Training.label_name. set_solver.
  - intros rng RandomState permutation csv g1 g2.
    unfold Training.diabetes_training_split. destruct csv as [df|e]; [|reflexivity].
    destruct (Training.features_and_labels df) as [[X y]|e]; reflexivity.
Qed.

(** C2, as stated, fails: the drift loop is a local computation whose
    input determines its output; on two patients it yields the same ages
    under a clock that stands still and under one that advances. *)
Lemma drifted_data_is_a_function :
  exists c : local_computation,
    input_determines_output c /\
    (no_deterministic_core -> False) /\
    Drift.data (snd (Drift.generate (fun _ => 737866) Drift.sample_diabetes2 ∅)) !! "Age"
    = Some (Pandas.ColInt [62; 149]) /\
    Drift.data (snd (Drift.generate (fun i => 737866 + Z.of_nat i) Drift.sample_diabetes2 ∅)) !! "Age"
    = Some (Pandas.ColInt [62; 149]).
Proof.
  assert (input_determines_output DriftedData) as Hdrift.
  { cbn [input_determines_output].
    intros clock1 clock2 diabetes2 files1 files2. unfold Drift.generate.
    apply for_each_depends_on_data. reflexivity. }
  exists DriftedData. split; [exact Hdrift|].
  split; [intros Hno; exact (Hno DriftedData Hdrift)|].
  split; vm_compute; reflexivity.
Qed.

End LocalCore.

(** ** Notebooks whose calls fail *)

Section FailingCalls.
Import Notebook Truncation.

Lemma grows_ret : grows (ret tt).
Proof. intros st. reflexivity. Qed.

Lemma grows_bind (c1 c2 : cell state unit) :
  grows c1 -> grows c2 -> grows (c1 >>! c2).
Proof.
  intros H1 H2 st. unfold bind. specialize (H1 st).
  destruct (c1 st) as [[[]|e] st1]; simpl in *; [|exact H1].
  etrans; [exact H1|apply H2].
Qed.

Lemma grows_for_each {A} (xs : list A) (f : A -> cell state unit) :
  (forall x, grows (f x)) -> grows (for_each xs f).
Proof.
  intros Hf. induction xs as [|x xs IH]; [apply grows_ret|].
  cbn [for_each]. apply grows_bind; [apply Hf|exact IH].
Qed.

Lemma grows_record e : grows (record e).
Proof. intros st. simpl. apply prefix_app_r. reflexivity. Qed.

Lemma grows_assign v r : grows (assign v r).
Proof. intros st. reflexivity. Qed.

(** After a look-up of a variable and a call, a continuation that grows. *)
Lemma grows_variable_sdk q v (k : run_id -> nat -> cell state unit) :
  (forall r i, grows (k r i)) ->
  grows (let! r := variable v in let! i := sdk q in k r i).
Proof.
  intros Hk st. unfold bind at 1. unfold variable.
  destruct (env st !! v) as [r|]; [|reflexivity].
  unfold bind. unfold sdk. destruct (raises q (calls st)); [reflexivity|].
  exact (Hk r (calls st) {| env := env st; submissions := submissions st;
                            calls := S (calls st); trace := trace st |}).
Qed.

Lemma grows_exec_all q body :
  Forall (fun s => grows (exec q s)) body -> grows (exec_all q body).
Proof.
  induction 1 as [|s body Hs _ IH]; [apply grows_ret|].
  cbn [exec_all]. apply grows_bind; assumption.
Qed.

Lemma grows_exec q s : grows (exec q s).
Proof.
  induction s as [v|v|v|v|v parent|v parent body IH|v body IH|name] using stmt_nested_ind.
  - intros st. cbn [exec]. unfold bind at 1. unfold sdk.
    destruct (raises q (calls st)); [reflexivity|]. simpl. apply prefix_app_r. reflexivity.
  - apply (grows_variable_sdk q v (fun r _ => record (EWaited r))).
    intros r _. apply grows_record.
  - apply (grows_variable_sdk q v (fun r _ => record (EGetMetrics r))).
    intros r _. apply grows_record.
  - apply (grows_variable_sdk q v (fun r _ => record (ERegisterModel r))).
    intros r _. apply grows_record.
  - apply (grows_variable_sdk q parent (fun r i => assign v (ChildOf r (best q i)))).
    intros r i. apply grows_assign.
  - intros st. rewrite exec_ForChildren.
    apply (grows_variable_sdk q parent
             (fun r i => for_each (seq 0 (count q i))
                           (fun k => assign v (ChildOf r k) >>! exec_all q body))).
    intros r i. apply grows_for_each. intros k.
    apply grows_bind; [apply grows_assign|apply grows_exec_all; exact IH].
  - intros st. rewrite exec_ForMetrics.
    apply (grows_variable_sdk q v
             (fun r i => record (EGetMetrics r) >>!
                         for_each (seq 0 (count q i)) (fun _ => exec_all q body))).
    intros r i. apply grows_bind; [apply grows_record|].
    apply grows_for_each. intros _. apply grows_exec_all; exact IH.
  - intros st. cbn [exec]. unfold bind, sdk.
    destruct (raises q (calls st)); reflexivity.
Qed.

Lemma truncates_refl (c : cell state unit) : truncates c c.
Proof. intros st. destruct (c st) as [[[]|e] st1] eqn:E; simpl; reflexivity. Qed.

Lemma truncates_bind (c1 c1' c2 c2' : cell state unit) :
  truncates c1 c1' -> truncates c2 c2' -> grows c2' ->
  truncates (c1 >>! c2) (c1' >>! c2').
Proof.
  intros H1 H2 G2 st. unfold bind. specialize (H1 st).
  destruct (c1 st) as [[[]|e] st1].
  - rewrite H1. apply H2.
  - destruct (c1' st) as [[[]|e'] st1']; simpl in *; [|exact H1].
    etrans; [exact H1|apply G2].
Qed.

Lemma truncates_for_each {A} (xs : list A) (f f' : A -> cell state unit) :
  (forall x, truncates (f x) (f' x)) -> (forall x, grows (f' x)) ->
  truncates (for_each xs f) (for_each xs f').
Proof.
  intros Hf Hg. induction xs as [|x xs IH]; [apply truncates_refl|].
  cbn [for_each]. apply truncates_bind; [apply Hf|exact IH|apply grows_for_each; exact Hg].
Qed.

Lemma truncates_variable_sdk p v (k k' : run_id -> nat -> cell state unit) :
  (forall r i, truncates (k r i) (k' r i)) -> (forall r i, grows (k' r i)) ->
  truncates (let! r := variable v in let! i := sdk p in k r i)
            (let! r := variable v in let! i := sdk (calm p) in k' r i).
Proof.
  intros Hk Gk st. unfold bind, variable, sdk. cbn [calm raises].
  destruct (env st !! v) as [r|]; [|simpl; reflexivity].
  destruct (raises p (calls st)); [apply Gk|apply Hk].
Qed.

Lemma truncates_exec_all p body :
  Forall (fun s => truncates (exec p s) (exec (calm p) s)) body ->
  truncates (exec_all p body) (exec_all (calm p) body).
Proof.
  induction 1 as [|s body Hs _ IH]; [apply truncates_refl|].
  cbn [exec_all]. apply truncates_bind; [exact Hs|exact IH|].
  apply grows_exec_all. apply Forall_forall. intros s' _. apply grows_exec.
Qed.

Lemma truncates_exec p s : truncates (exec p s) (exec (calm p) s).
Proof.
  induction s as [v|v|v|v|v parent|v parent body IH|v body IH|name] using stmt_nested_ind.
  - intros st. cbn [exec]. unfold bind, sdk, fresh_run, record, assign, modify.
    cbn [calm raises].
    destruct (raises p (calls st)); [|simpl; reflexivity].
    simpl. apply prefix_app_r. reflexivity.
  - apply (truncates_variable_sdk p v (fun r _ => record (EWaited r))
             (fun r _ => record (EWaited r))).
    + intros r _. apply truncates_refl.
    + intros r _. apply grows_record.
  - apply (truncates_variable_sdk p v (fun r _ => record (EGetMetrics r))
             (fun r _ => record (EGetMetrics r))).
    + intros r _. apply truncates_refl.
    + intros r _. apply grows_record.
  - apply (truncates_variable_sdk p v (fun r _ => record (ERegisterModel r))
             (fun r _ => record (ERegisterModel r))).
    + intros r _. apply truncates_refl.
    + intros r _. apply grows_record.
  - apply (truncates_variable_sdk p parent (fun r i => assign v (ChildOf r (best p i)))
             (fun r i => assign v (ChildOf r (best (calm p) i)))).
    + intros r i. apply truncates_refl.
    + intros r i. apply grows_assign.
  - assert (Forall (fun s => grows (exec (calm p) s)) body) as Gbody
      by (apply Forall_forall; intros s' _; apply grows_exec).
    intros st. rewrite !exec_ForChildren.
    apply (truncates_variable_sdk p parent
             (fun r i => for_each (seq 0 (count p i))
                           (fun k => assign v (ChildOf r k) >>! exec_all p body))
             (fun r i => for_each (seq 0 (count (calm p) i))
                           (fun k => assign v (ChildOf r k) >>! exec_all (calm p) body))).
    + intros r i. apply truncates_for_each.
      * intros k. apply truncates_bind;
          [apply truncates_refl|apply truncates_exec_all; exact IH|apply grows_exec_all; exact Gbody].
      * intros k. apply grows_bind; [apply grows_assign|apply grows_exec_all; exact Gbody].
    + intros r i. apply grows_for_each. intros k.
      apply grows_bind; [apply grows_assign|apply grows_exec_all; exact Gbody].
  - assert (Forall (fun s => grows (exec (calm p) s)) body) as Gbody
      by (apply Forall_forall; intros s' _; apply grows_exec).
    intros st. rewrite !exec_ForMetrics.
    apply (truncates_variable_sdk p v
             (fun r i => record (EGetMetrics r) >>!
                         for_each (seq 0 (count p i)) (fun _ => exec_all p body))
             (fun r i => record (EGetMetrics r) >>!
                         for_each (seq 0 (count (calm p) i)) (fun _ => exec_all (calm p) body))).
    + intros r i. apply truncates_bind; [apply truncates_refl| |].
      * apply truncates_for_each; [intros _; apply truncates_exec_all; exact IH|].
        intros _. apply grows_exec_all; exact Gbody.
      * apply grows_for_each. intros _. apply grows_exec_all; exact Gbody.
    + intros r i. apply grows_bind; [apply grows_record|].
      apply grows_for_each. intros _. apply grows_exec_all; exact Gbody.
  - intros st. cbn [exec]. unfold bind, sdk. cbn [calm raises].
    destruct (raises p (calls st)); simpl; reflexivity.
Qed.

(** A call that raises cuts the run of a notebook short and changes nothing
    else: the events are the first events of the run in which no call
    raises. *)
Lemma failing_call_truncates p notebook :
  run_notebook p notebook `prefix_of` run_notebook (calm p) notebook.
Proof.
  unfold run_notebook.
  assert (truncates (exec_all p notebook) (exec_all (calm p) notebook)) as H.
  { apply truncates_exec_all. apply Forall_forall. intros s _. apply truncates_exec. }
  specialize (H initial).
  destruct (exec_all p notebook initial) as [[[]|e] st1]; simpl; [rewrite H; reflexivity|exact H].
Qed.

(** X1: whichever calls of the platform raise, the Train Models notebook
    does the first steps of one fixed sequence and nothing else: submit the
    first experiment, wait for it, read its metrics three times, register
    its model, then the same for the second experiment. *)
Theorem train_models_runs (p : platform) :
  run_notebook p train_models
  `prefix_of`
  [ESubmit (Submitted 0); EWaited (Submitted 0);
   EGetMetrics (Submitted 0); EGetMetrics (Submitted 0); EGetMetrics (Submitted 0);
   ERegisterModel (Submitted 0);
   ESubmit (Submitted 1); EWaited (Submitted 1);
   EGetMetrics (Submitted 1); EGetMetrics (Submitted 1); EGetMetrics (Submitted 1);
   ERegisterModel (Submitted 1)].
Proof.
  pose proof (failing_call_truncates p train_models) as H.
  assert (run_notebook (calm p) train_models
          = [ESubmit (Submitted 0); EWaited (Submitted 0);
             EGetMetrics (Submitted 0); EGetMetrics (Submitted 0); EGetMetrics (Submitted 0);
             ERegisterModel (Submitted 0);
             ESubmit (Submitted 1); EWaited (Submitted 1);
             EGetMetrics (Submitted 1); EGetMetrics (Submitted 1); EGetMetrics (Submitted 1);
             ERegisterModel (Submitted 1)]) as E by (vm_compute; reflexivity).
  rewrite E in H. exact H.
Qed.

(** X2: whichever calls of the platform raise, the steps of the data-drift
    notebook on its backfill run are the first steps of: start the backfill
    run, wait for it, read its metrics.  (A call that raises ends the
    notebook here; where a cell catches the exception, as the compute-target
    cell does, the notebook goes on as in a run whose call returns, and its
    steps are again the first steps of this sequence.) *)
Theorem monitor_data_drift_runs (p : platform) :
  run_notebook p monitor_data_drift
  `prefix_of` [ESubmit (Submitted 0); EWaited (Submitted 0); EGetMetrics (Submitted 0)].
Proof.
  pose proof (failing_call_truncates p monitor_data_drift) as H.
  assert (run_notebook (calm p) monitor_data_drift
          = [ESubmit (Submitted 0); EWaited (Submitted 0); EGetMetrics (Submitted 0)]) as E
    by (vm_compute; reflexivity).
  rewrite E in H. exact H.
Qed.

End FailingCalls.

(** ** The drift loop on any frame *)

Section DriftEdges.
Import Pandas Drift DriftFiles.

Lemma modify_data_keeps_files st :
  file_paths (snd (modify_data st)) = file_paths st /\
  disk (snd (modify_data st)) = disk st /\
  clock_reads (snd (modify_data st)) = clock_reads st.
Proof.
  unfold modify_data, column_of, set_column, bind, get, lift, modify. simpl.
  destruct (getitem (data st) "Pregnancies") as [p|e]; simpl; [|auto].
  destruct (getitem _ "Age") as [a|e]; simpl; [|auto].
  destruct (astype_int _) as [a'|e]; simpl; [|auto].
  destruct (getitem _ "BMI") as [b|e]; simpl; auto.
Qed.

Lemma dated_cons clock start w ws :
  dated clock start (w :: ws)
  = DiabetesCsv (clock start - 7 * w) :: dated clock (S start) ws.
Proof.
  unfold dated. cbn [imap]. rewrite Nat.add_0_r. f_equal.
  apply imap_ext. intros i x _. simpl. do 3 f_equal. lia.
Qed.

Lemma loop_files clock ws :
  forall st,
    exists n : nat,
      (n <= length ws)%nat /\
      file_paths (snd (for_each ws (loop_body clock) st))
      = file_paths st ++ take n (dated clock (clock_reads st) ws) /\
      (fst (for_each ws (loop_body clock) st) = Ok tt <-> n = length ws) /\
      (forall p, p ∉ take n (dated clock (clock_reads st) ws) ->
                 disk (snd (for_each ws (loop_body clock) st)) !! p = disk st !! p) /\
      (forall p, p ∈ take n (dated clock (clock_reads st) ws) ->
                 is_Some (disk (snd (for_each ws (loop_body clock) st)) !! p)).
Proof.
  induction ws as [|w ws IH]; intros st.
  - exists 0%nat. simpl. rewrite app_nil_r. repeat split; auto.
    intros p Hp. apply elem_of_nil in Hp. contradiction.
  - cbn [for_each]. unfold bind. rewrite loop_body_unfold. cbv zeta.
    rewrite dated_cons.
    set (s1 := {| data := data st; file_paths := file_paths st; disk := disk st;
                  clock_reads := S (clock_reads st) |}).
    destruct (modify_data_keeps_files s1) as (Hfp & Hdk & Hcr).
    destruct (modify_data s1) as [[[]|e] s2]; simpl in Hfp, Hdk, Hcr.
    + set (fp := DiabetesCsv (clock (clock_reads st) - 7 * w)).
      set (s3 := {| data := data s2; file_paths := file_paths s2 ++ [fp];
                    disk := <[fp := csv_of (data s2)]> (disk s2);
                    clock_reads := clock_reads s2 |}).
      destruct (IH s3) as (n & Hn & Hpaths & Hok & Hout & Hin).
      replace (clock_reads s3) with (S (clock_reads st)) in * by (simpl; congruence).
      exists (S n). cbn [length take]. split; [lia|]. split.
      { rewrite Hpaths. simpl. rewrite Hfp, <- app_assoc. reflexivity. }
      split; [rewrite Hok; lia|]. split.
      * intros p Hp. apply not_elem_of_cons in Hp as [Hne Hp].
        rewrite (Hout p Hp). simpl. rewrite lookup_insert_ne by congruence.
        rewrite Hdk. reflexivity.
      * intros p Hp.
        destruct (decide (p ∈ take n (dated clock (S (clock_reads st)) ws))) as [Hlater|Hnot];
          [apply Hin; exact Hlater|].
        apply elem_of_cons in Hp as [->|Hp]; [|contradiction].
        rewrite (Hout fp Hnot). simpl. rewrite lookup_insert_eq. eauto.
    + exists 0%nat. cbn [length take fst snd]. rewrite app_nil_r.
      split; [lia|]. split; [exact Hfp|]. split; [split; [discriminate|lia]|].
      split; [intros p _; rewrite Hdk; reflexivity|].
      intros p Hp. apply elem_of_nil in Hp. contradiction.
Qed.

(** X3: for every frame, clock and disk, the drift loop writes the files
    of its first [n] passes, [n <= 6], dated 5, 4, 3, 2, 1 and 0 weeks
    before the day the pass read from the clock; it ends without an
    exception exactly when it wrote all six; every listed file exists and
    every other file on disk is untouched. *)
Theorem drift_loop_touches_dated_files_only (clock : nat -> Z) (diabetes2 : frame)
    (files : gmap path frame) :
  exists n : nat,
    (n <= 6)%nat /\
    file_paths (snd (generate clock diabetes2 files))
    = take n [DiabetesCsv (clock 0%nat - 35); DiabetesCsv (clock 1%nat - 28);
              DiabetesCsv (clock 2%nat - 21); DiabetesCsv (clock 3%nat - 14);
              DiabetesCsv (clock 4%nat - 7); DiabetesCsv (clock 5%nat - 0)] /\
    (fst (generate clock diabetes2 files) = Ok tt <-> n = 6%nat) /\
    (forall p, p ∉ file_paths (snd (generate clock diabetes2 files)) ->
               disk (snd (generate clock diabetes2 files)) !! p = files !! p) /\
    (forall p, p ∈ file_paths (snd (generate clock diabetes2 files)) ->
               is_Some (disk (snd (generate clock diabetes2 files)) !! p)).
Proof.
  unfold generate.
  destruct (loop_files clock weeknos
              {| data := diabetes2; file_paths := []; disk := files; clock_reads := 0 |})
    as (n & Hn & Hpaths & Hok & Hout & Hin).
  exists n. split; [exact Hn|]. split; [exact Hpaths|]. split; [exact Hok|]. split.
  - intros p Hp. rewrite Hpaths in Hp. exact (Hout p Hp).
  - intros p Hp. rewrite Hpaths in Hp. exact (Hin p Hp).
Qed.

Lemma generate_first_pass_raises clock df files e st1 :
  modify_data {| data := df; file_paths := []; disk := files; clock_reads := 1 |}
  = (Raise e, st1) ->
  generate clock df files = (Raise e, st1).
Proof.
  intros Hm. unfold generate. cbn [weeknos seq map rev app for_each]. unfold bind at 1.
  rewrite loop_body_unfold. cbv zeta. cbn [data file_paths disk clock_reads].
  rewrite Hm. reflexivity.
Qed.

(** X4: on a frame with a Pregnancies column and no Age column the cell
    raises KeyError 'Age' in its first pass: the clock was read once, the
    Pregnancies were already incremented, no file was written. *)
Theorem drift_without_age_column (clock : nat -> Z) (diabetes2 : frame)
    (files : gmap path frame) (pregnancies : column) :
  diabetes2 !! "Pregnancies" = Some pregnancies ->
  diabetes2 !! "Age" = None ->
  generate clock diabetes2 files
  = (Raise (KeyError "Age"),
     {| data := <["Pregnancies" := add_int pregnancies 1]> diabetes2;
        file_paths := []; disk := files; clock_reads := 1 |}).
Proof.
  intros Hp Ha. apply generate_first_pass_raises.
  unfold modify_data, column_of, set_column, bind, get, lift, modify, getitem. simpl.
  rewrite Hp. simpl. rewrite lookup_insert_ne by discriminate. rewrite Ha. reflexivity.
Qed.

Lemma drift_without_age_column_witness :
  generate (fun _ => 737866) sample_without_age ∅
  = (Raise (KeyError "Age"),
     {| data := <["Pregnancies" := add_int (ColInt [0; 8]) 1]> sample_without_age;
        file_paths := []; disk := ∅; clock_reads := 1 |}).
Proof.
  apply (drift_without_age_column (fun _ => 737866) sample_without_age ∅ (ColInt [0; 8]));
    vm_compute; reflexivity.
Defined.

Lemma nan_stays_nan : Float64.rint (Float64.mul S754_nan c1_2) = S754_nan.
Proof. vm_compute. reflexivity. Qed.

(** X5: an empty cell in the Age column (a NaN of a float column) makes
    [astype(int)] raise ValueError in the first pass, after the Pregnancies
    were incremented and before any file is written. *)
Theorem drift_with_empty_age_cell (clock : nat -> Z) (diabetes2 : frame)
    (files : gmap path frame) (pregnancies : column) (ages : list spec_float) :
  diabetes2 !! "Pregnancies" = Some pregnancies ->
  diabetes2 !! "Age" = Some (ColFloat ages) ->
  S754_nan ∈ ages ->
  generate clock diabetes2 files
  = (Raise (ValueError "Cannot convert non-finite values (NA or inf) to integer"),
     {| data := <["Pregnancies" := add_int pregnancies 1]> diabetes2;
        file_paths := []; disk := files; clock_reads := 1 |}).
Proof.
  intros Hp Ha Hnan. apply generate_first_pass_raises.
  unfold modify_data, column_of, set_column, bind, get, lift, modify, getitem. simpl.
  rewrite Hp. simpl. rewrite lookup_insert_ne by discriminate. rewrite Ha. simpl.
  assert (forallb Float64.is_finite
            (map Float64.rint (map (fun x => Float64.mul x c1_2) ages)) = false) as ->;
    [|reflexivity].
  apply not_true_iff_false. intros Hall. rewrite forallb_forall in Hall.
  specialize (Hall S754_nan). simpl in Hall. discriminate Hall.
  apply in_map_iff. exists S754_nan. split; [reflexivity|].
  apply in_map_iff. exists S754_nan. split; [reflexivity|].
  apply list_elem_of_In. exact Hnan.
Qed.

Lemma drift_with_empty_age_cell_witness :
  generate (fun _ => 737866) sample_empty_age ∅
  = (Raise (ValueError "Cannot convert non-finite values (NA or inf) to integer"),
     {| data := <["Pregnancies" := add_int (ColInt [0; 8]) 1]> sample_empty_age;
        file_paths := []; disk := ∅; clock_reads := 1 |}).
Proof.
  apply (drift_with_empty_age_cell (fun _ => 737866) sample_empty_age ∅ (ColInt [0; 8])
           [Float64.of_Z 21; S754_nan]).
  - vm_compute. reflexivity.
  - vm_compute. reflexivity.
  - apply list_elem_of_further, list_elem_of_here.
Defined.

(** X6: on integer ages between 0 and 449 one pass of
    [round(Age * 1.2).astype(int)] in binary64 gives the integer nearest to
    1.2 times the age, [(12 * a + 5) / 10] (no age of that range is a tie):
    it never lowers the age and is within 0.4 of the exact product. *)
Theorem age_drift_is_nearest_integer (ages : list Z) :
  Forall (fun a => 0 <= a < 450) ages ->
  astype_int (round (mul_float (ColInt ages) c1_2))
  = Ok (ColInt (map (fun a => (12 * a + 5) / 10) ages)) /\
  Forall (fun a => a <= (12 * a + 5) / 10 /\
                   -4 <= 10 * ((12 * a + 5) / 10) - 12 * a <= 4) ages.
Proof.
  intros Hages. split.
  - cbn [mul_float round astype_int].
    assert (forallb Float64.is_finite
              (map Float64.rint (map (fun x => Float64.mul (Float64.of_Z x) c1_2) ages))
            = true) as ->.
    { rewrite forallb_forall. intros x Hx.
      apply in_map_iff in Hx as (y & <- & Hy). apply in_map_iff in Hy as (a & <- & Ha).
      rewrite Forall_forall in Hages.
      apply (age_step_nearest a). apply Hages. apply list_elem_of_In. exact Ha. }
    do 2 f_equal. rewrite !map_map. apply map_ext_in. intros a Ha.
    rewrite Forall_forall in Hages.
    apply (age_step_nearest a). apply Hages. apply list_elem_of_In. exact Ha.
  - eapply Forall_impl; [exact Hages|]. intros a Ha. cbv beta in *.
    Z.to_euclidean_division_equations. lia.
Qed.

Lemma age_drift_is_nearest_integer_witness :
  astype_int (round (mul_float (ColInt [21; 50]) c1_2)) = Ok (ColInt [25; 60]).
Proof.
  apply (age_drift_is_nearest_integer [21; 50]).
  constructor; [lia|]. constructor; [lia|]. constructor.
Defined.





End DriftEdges.

(** ** The compute-target cell *)

Section ComputeTargetCell.
Import Compute.

(** X8: in the compute-target cell only [ComputeTargetException] reaches
    the handler.  When the look-up of the cluster returns, the cell binds
    [training_cluster] to the cluster found, prints 'Found existing
    cluster, use it.' and returns; when the look-up raises another
    exception, that exception leaves the cell at once, with nothing bound
    and nothing printed; in both cases the look-up is the only call
    issued: nothing is provisioned. *)
Theorem compute_target_cell_lookup_paths (p : platform) (st : state) :
  (forall cluster,
      existing_target p = Ok cluster ->
      compute_target_cell p st
      = (Ok tt,
         {| training_cluster := Some cluster;
            compute_config := compute_config st;
            tab_data_set := tab_data_set st;
            calls := calls st ++ [GetComputeTarget "dp100cluster"];
            stdout := stdout st
                      ++ [[Scoring.ShowVal (Py.PyStr "Found existing cluster, use it.")]] |})) /\
  (forall e,
      existing_target p = Raise e -> e <> ComputeTargetException ->
      compute_target_cell p st
      = (Raise e,
         {| training_cluster := training_cluster st;
            compute_config := compute_config st;
            tab_data_set := tab_data_set st;
            calls := calls st ++ [GetComputeTarget "dp100cluster"];
            stdout := stdout st |})).
Proof.
  unfold compute_target_cell, try_except.
  unfold bind at 1. unfold call at 1. unfold bind at 1. unfold modify at 1. unfold lift at 1.
  split.
  - intros cluster ->. reflexivity.
  - intros e -> Hne. destruct e; try reflexivity. contradiction.
Qed.

(** X9: when the cluster is not found, [training_cluster] is bound after
    the cell exactly when [provisioning_configuration] and
    [ComputeTarget.create] returned, and then to the created target, also
    when waiting for the provisioning raised. *)
Theorem compute_target_cell_binds_created_cluster (p : platform) (cluster : string) :
  existing_target p = Raise ComputeTargetException ->
  (training_cluster (snd (compute_target_cell p initial)) = Some cluster <->
   (exists config, provisioning_configuration p = Ok config) /\
   created_target p = Ok cluster).
Proof.
  intros Hlookup.
  unfold compute_target_cell, try_except.
  unfold bind at 1. unfold call at 1. unfold bind at 1. unfold modify at 1. unfold lift at 1.
  rewrite Hlookup. simpl.
  unfold on_compute_target_exception, try_except, bind, call, modify, lift,
    set_compute_config, set_training_cluster, print_exception, print, is_Exception.
  destruct (provisioning_configuration p) as [cfg|e1]; simpl.
  - destruct (created_target p) as [c|e2]; simpl.
    + destruct (provisioned p) as [[]|e3]; simpl;
        (split; [intros [= <-]; eauto|intros [_ [= <-]]; reflexivity]).
    + split; [discriminate|]. intros [_ H]. discriminate H.
  - split; [discriminate|]. intros [[config H] _]. discriminate H.
Qed.

Lemma compute_target_cell_binds_created_cluster_witness :
  training_cluster (snd (compute_target_cell absent_cluster initial)) = Some "dp100cluster" <->
  (exists config, provisioning_configuration absent_cluster = Ok config) /\
  created_target absent_cluster = Ok "dp100cluster".
Proof.
  apply (compute_target_cell_binds_created_cluster absent_cluster "dp100cluster").
  reflexivity.
Defined.

End ComputeTargetCell.

(** ** The designer-pipeline cell *)

Section DesignerCell.
Import Py Scoring.

Variable dumps : pyval -> string.
Variable loads : string -> result pyval.

(** X10: the designer-pipeline cell catches HTTPError only: any other
    exception of [urlopen] or of [json.loads] leaves the cell, after the one
    request and with nothing printed. *)
Theorem designer_predict_passes_other_errors (endpoint key : string) (e : exn) :
  is_HTTPError e = false ->
  designer_predict dumps loads endpoint key (Raise e) initial
  = (Raise e, {| sent := [designer_request dumps endpoint key]; stdout := [] |}) /\
  (forall result,
      loads result = Raise e ->
      designer_predict dumps loads endpoint key (Ok result) initial
      = (Raise e, {| sent := [designer_request dumps endpoint key]; stdout := [] |})).
Proof.
  intros He. split.
  - unfold designer_predict, try_except, send, bind, modify, lift, initial. simpl.
    rewrite He. reflexivity.
  - intros result Hl.
    unfold designer_predict, try_except, send, bind, modify, lift, initial. simpl.
    rewrite Hl. simpl. rewrite He. reflexivity.
Qed.

(** X11: on an HTTPError the cell has sent its one request and prints the
    status code, then the headers of the error, then the parsed body of the
    error; a body that is not JSON raises out of the handler after the
    first two lines. *)
Theorem designer_predict_reports_http_error (endpoint key : string) (code : Z)
    (info body : string) :
  let run := designer_predict dumps loads endpoint key (Raise (HTTPError code info body))
               initial in
  sent (snd run) = [designer_request dumps endpoint key] /\
  (forall parsed,
      loads body = Ok parsed ->
      fst run = Ok tt /\
      stdout (snd run)
      = [[ShowFormat "The request failed with status code: {}" [PyInt code]];
         [ShowVal (PyStr info)];
         [ShowVal parsed]]) /\
  (forall e,
      loads body = Raise e ->
      fst run = Raise e /\
      stdout (snd run)
      = [[ShowFormat "The request failed with status code: {}" [PyInt code]];
         [ShowVal (PyStr info)]]).
Proof.
  cbv zeta.
  unfold designer_predict, try_except, send, on_http_error, print, bind, modify, lift, initial.
  simpl. destruct (loads body) as [parsed|e]; simpl.
  - split; [reflexivity|]. split; [intros ? [= <-]; auto|intros ? [=]].
  - split; [reflexivity|]. split; [intros ? [=]|intros ? [= <-]; auto].
Qed.

(** X12: on an answer [{"Results": {"WebServiceOutput0": [output, ...]}}]
    the cell reads the PatientID, DiabetesPrediction and Probability of the
    first output and ignores the other outputs.  When the Probability is a
    float, a bool, or an int that rounds to a finite float, it prints one
    line built from the three; an int beyond the range of the floats makes
    ['{:.2f}'.format] raise OverflowError, and a string ValueError, with
    nothing printed. *)
Theorem designer_predict_prints_first_output (endpoint key result : string)
    (top results output : list (string * pyval)) (more : list pyval)
    (patient prediction probability : pyval) :
  loads result = Ok (PyDict top) ->
  dict_get top "Results" = Some (PyDict results) ->
  dict_get results "WebServiceOutput0" = Some (PyList (PyDict output :: more)) ->
  dict_get output "PatientID" = Some patient ->
  dict_get output "DiabetesPrediction" = Some prediction ->
  dict_get output "Probability" = Some probability ->
  let run := designer_predict dumps loads endpoint key (Ok result) initial in
  let finite (z : Z) :=
    match binary_normalize 53 1024 z 0 false with
    | S754_zero _ | S754_finite _ _ _ => True
    | S754_infinity _ | S754_nan => False
    end in
  ((exists f, probability = PyFloat f) \/ (exists b, probability = PyBool b) \/
   (exists z, probability = PyInt z /\ finite z) ->
   run = (Ok tt,
          {| sent := [designer_request dumps endpoint key];
             stdout := [[ShowFormat "Patient: {}\nPrediction: {}\nProbability: {:.2f}"
                           [patient; prediction; probability]]] |})) /\
  (forall z, probability = PyInt z -> ~ finite z ->
     run = (Raise OverflowError,
            {| sent := [designer_request dumps endpoint key]; stdout := [] |})) /\
  (forall s, probability = PyStr s ->
     exists msg,
       run = (Raise (ValueError msg),
              {| sent := [designer_request dumps endpoint key]; stdout := [] |})).
Proof.
  intros Hl Hr Ho Hpat Hpred Hprob. cbv zeta.
  assert (designer_predict dumps loads endpoint key (Ok result) initial
          = match format_2f probability with
            | Ok _ =>
                (Ok tt,
                 {| sent := [designer_request dumps endpoint key];
                    stdout := [[ShowFormat "Patient: {}\nPrediction: {}\nProbability: {:.2f}"
                                  [patient; prediction; probability]]] |})
            | Raise e =>
                if is_HTTPError e
                then on_http_error loads e
                       {| sent := [designer_request dumps endpoint key]; stdout := [] |}
                else (Raise e, {| sent := [designer_request dumps endpoint key];
                                  stdout := [] |})
            end) as ->.
  { unfold designer_predict, try_except, send, print, bind, modify, lift, initial. simpl.
    rewrite Hl. simpl. rewrite Hr. simpl. rewrite Ho. simpl.
    rewrite Hpat. simpl. rewrite Hpred. simpl. rewrite Hprob. simpl.
    destruct (format_2f probability) as [[]|e]; reflexivity. }
  split; [|split].
  - intros [[f ->]|[[b ->]|(z & -> & Hz)]]; try reflexivity.
    cbn [format_2f]. unfold Float64.of_Z, Float64.prec, Float64.emax.
    destruct (binary_normalize 53 1024 z 0 false); try contradiction; reflexivity.
  - intros z -> Hz. cbn [format_2f]. unfold Float64.of_Z, Float64.prec, Float64.emax.
    destruct (binary_normalize 53 1024 z 0 false); try reflexivity; exfalso; apply Hz; exact I.
  - intros s ->. eexists. reflexivity.
Qed.

End DesignerCell.

Lemma designer_predict_passes_other_errors_witness :
  Scoring.designer_predict (fun _ => "payload") Examples.sample_designer_loads
    "endpoint" "key" (Raise URLError) Scoring.initial
  = (Raise URLError,
     {| Scoring.sent := [Scoring.designer_request (fun _ => "payload") "endpoint" "key"];
        Scoring.stdout := [] |}).
Proof.
  apply (designer_predict_passes_other_errors (fun _ => "payload")
           Examples.sample_designer_loads "endpoint" "key" URLError).
  reflexivity.
Defined.

Lemma designer_predict_prints_first_output_witness :
  Scoring.designer_predict (fun _ => "payload") Examples.sample_designer_loads
    "endpoint" "key" (Ok "body") Scoring.initial
  = (Ok tt,
     {| Scoring.sent := [Scoring.designer_request (fun _ => "payload") "endpoint" "key"];
        Scoring.stdout :=
          [[Scoring.ShowFormat "Patient: {}\nPrediction: {}\nProbability: {:.2f}"
              [Py.PyInt 1882185; Py.PyInt 1; Py.PyFloat (Float64.literal 7 10)]]] |}).
Proof.
  apply (designer_predict_prints_first_output (fun _ => "payload")
           Examples.sample_designer_loads "endpoint" "key" "body"
           [("Results",
             Py.PyDict [("WebServiceOutput0", Py.PyList [Py.PyDict Examples.sample_output])])]
           [("WebServiceOutput0", Py.PyList [Py.PyDict Examples.sample_output])]
           Examples.sample_output []
           (Py.PyInt 1882185) (Py.PyInt 1) (Py.PyFloat (Float64.literal 7 10)));
    try (vm_compute; reflexivity).
  left. eexists. reflexivity.
Defined.

(** ** The rows of a split and the ends of a script *)

Section RowsOfASplit.
Import Training.

Lemma take_rows_spec {A} (a : list A) (indices : list nat) (xs : list A) :
  take_rows a indices = Ok xs <-> Forall2 (fun i x => a !! i = Some x) indices xs.
Proof.
  revert xs. induction indices as [|i indices IH]; intros xs; cbn [take_rows].
  - split.
    + intros [= <-]. constructor.
    + intros H. apply Forall2_nil_inv_l in H as ->. reflexivity.
  - split.
    + destruct (a !! i) as [x|] eqn:Hx; [|discriminate].
      destruct (take_rows a indices) as [ys|]; [|discriminate].
      intros [= <-]. constructor; [exact Hx|]. apply IH. reflexivity.
    + intros H. apply Forall2_cons_inv_l in H as (x & ys & Hx & Hys & ->).
      rewrite Hx. apply IH in Hys. rewrite Hys. reflexivity.
Qed.

Lemma take_rows_all {A} (a : list A) : take_rows a (seq 0 (length a)) = Ok a.
Proof.
  apply take_rows_spec. apply Forall2_same_length_lookup. split.
  - rewrite length_seq. reflexivity.
  - intros k i x Hi Hx. apply lookup_seq in Hi as [-> _]. exact Hx.
Qed.

Lemma take_rows_permutation {A} (a : list A) (indices indices' : list nat) (xs : list A) :
  indices ≡ₚ indices' ->
  take_rows a indices = Ok xs ->
  exists xs', take_rows a indices' = Ok xs' /\ xs ≡ₚ xs'.
Proof.
  intros Hperm. revert xs.
  induction Hperm as [|i l l' _ IH|i j l|l1 l2 l3 _ IH1 _ IH2]; intros xs Hxs.
  - exists xs. split; [exact Hxs|reflexivity].
  - apply take_rows_spec in Hxs. apply Forall2_cons_inv_l in Hxs as (x & ys & Hx & Hys & ->).
    apply take_rows_spec in Hys. destruct (IH ys Hys) as (ys' & Hys' & Hp).
    exists (x :: ys'). split; [|constructor; exact Hp].
    apply take_rows_spec. constructor; [exact Hx|]. apply take_rows_spec. exact Hys'.
  - apply take_rows_spec in Hxs. apply Forall2_cons_inv_l in Hxs as (x & ys & Hx & Hys & ->).
    apply Forall2_cons_inv_l in Hys as (x' & zs & Hx' & Hzs & ->).
    exists (x' :: x :: zs). split; [|apply perm_swap].
    apply take_rows_spec. constructor; [exact Hx'|]. constructor; [exact Hx|exact Hzs].
  - destruct (IH1 xs Hxs) as (ys & Hys & Hp1). destruct (IH2 ys Hys) as (zs & Hzs & Hp2).
    exists zs. split; [exact Hzs|]. etrans; eassumption.
Qed.

Lemma take_rows_app {A} (a : list A) (i1 i2 : list nat) (x1 x2 : list A) :
  take_rows a i1 = Ok x1 -> take_rows a i2 = Ok x2 ->
  take_rows a (i1 ++ i2) = Ok (x1 ++ x2).
Proof.
  rewrite !take_rows_spec. apply Forall2_app.
Qed.

Lemma take_rows_zip {A B} (a : list A) (b : list B) (indices : list nat) xs ys :
  take_rows a indices = Ok xs -> take_rows b indices = Ok ys ->
  take_rows (zip a b) indices = Ok (zip xs ys).
Proof.
  rewrite !take_rows_spec. revert xs ys.
  induction indices as [|i indices IH]; intros xs ys Hx Hy.
  - apply Forall2_nil_inv_l in Hx as ->. constructor.
  - apply Forall2_cons_inv_l in Hx as (x & xs' & Hx & Hxs & ->).
    apply Forall2_cons_inv_l in Hy as (y & ys' & Hy & Hys & ->).
    cbn [zip zip_with]. constructor; [|apply IH; assumption].
    rewrite lookup_zip_with, Hx, Hy. reflexivity.
Qed.

Variable rng : Type.
Variable RandomState : Z -> rng.
Variable permutation : rng -> nat -> list nat.

Lemma split_rows X y test_size random_state global_rng s :
  train_test_split rng RandomState permutation X y test_size random_state global_rng = Ok s ->
  permutation (check_random_state rng RandomState random_state global_rng) (length X)
    ≡ₚ seq 0 (length X) ->
  zip (X_test s) (y_test s) ++ zip (X_train s) (y_train s) ≡ₚ zip X y.
Proof.
  unfold train_test_split.
  destruct (negb _) eqn:Hlen; [discriminate|].
  destruct (_ || _); [discriminate|].
  destruct (Float64.ceil _) as [n_test|]; [|discriminate].
  destruct (_ =? 0)%nat eqn:Htrain; [discriminate|].
  set (indices := permutation _ _).
  set (test := take (Z.to_nat n_test) indices).
  set (train := take (length X - Z.to_nat n_test) (drop (Z.to_nat n_test) indices)).
  destruct (take_rows X train) as [Xtr|] eqn:H1; [|discriminate].
  destruct (take_rows X test) as [Xte|] eqn:H2 in |- *; [|discriminate].
  destruct (take_rows y train) as [ytr|] eqn:H3; [|discriminate].
  destruct (take_rows y test) as [yte|] eqn:H4 in |- *; [|discriminate].
  intros [= <-] Hperm. cbn [X_test y_test X_train y_train].
  apply negb_false_iff, Nat.eqb_eq in Hlen. apply Nat.eqb_neq in Htrain.
  assert (test ++ train = indices) as Hall.
  { subst test train. rewrite <- (take_drop (Z.to_nat n_test) indices) at 3. f_equal.
    apply take_ge. rewrite length_drop.
    apply Permutation_length in Hperm. rewrite length_seq in Hperm. lia. }
  pose proof (take_rows_app _ _ _ _ _ (take_rows_zip X y test _ _ H2 H4)
                (take_rows_zip X y train _ _ H1 H3)) as Hrows.
  rewrite Hall in Hrows.
  assert (indices ≡ₚ seq 0 (length (zip X y))) as Hperm'.
  { rewrite length_zip_with, Hlen, Nat.min_id. exact Hperm. }
  destruct (take_rows_permutation _ _ _ _ Hperm' Hrows) as (all & Hall' & Hp).
  rewrite take_rows_all in Hall'. injection Hall' as <-. exact Hp.
Qed.

End RowsOfASplit.

Section TrainingEdges.
Import Pandas Training Examples ScriptEnds.

Variable rng : Type.
Variable RandomState : Z -> rng.
Variable permutation : rng -> nat -> list nat.
Variable model : Type.
Variable fit : spec_float -> list (list scalar) -> list scalar -> result model.
Variable predict : model -> list scalar -> scalar.
Variable predict_proba_1 : model -> list scalar -> spec_float.
Variable roc_auc_score : list scalar -> list spec_float -> result spec_float.
Variable raises : call -> option exn.

(** The two scripts of the Train Models notebook and their splits, on the
    libraries above. *)
Abbreviation train_and_log' :=
  (train_and_log model fit predict predict_proba_1 roc_auc_score raises).
Abbreviation plain :=
  (diabetes_training rng RandomState permutation model fit predict predict_proba_1
     roc_auc_score raises).
Abbreviation parameterized :=
  (diabetes_training_params rng RandomState permutation model fit predict predict_proba_1
     roc_auc_score raises).
Abbreviation plain_split := (diabetes_training_split rng RandomState permutation).
Abbreviation parameterized_split :=
  (diabetes_training_params_split rng RandomState permutation).

(** X13: when numpy's [permutation] returns a permutation of the row
    numbers, the split of either script puts every row of diabetes.csv,
    with its own label, in exactly one of the test and the training set:
    the test pairs followed by the training pairs are a rearrangement of
    the rows. *)
Theorem split_uses_every_row_once (diabetes : frame) (global_rng : rng)
    (X : list (list scalar)) (y : list scalar) (s : split) :
  features_and_labels diabetes = Ok (X, y) ->
  permutation (RandomState 0) (length X) ≡ₚ seq 0 (length X) ->
  plain_split (Ok diabetes) global_rng = Ok s \/
  parameterized_split (Ok diabetes) global_rng = Ok s ->
  zip (X_test s) (y_test s) ++ zip (X_train s) (y_train s) ≡ₚ zip X y.
Proof.
  intros HXy Hperm [Hs|Hs].
  - unfold Training.diabetes_training_split in Hs. rewrite HXy in Hs.
    exact (split_rows rng RandomState permutation X y _ (Some 0) global_rng s Hs Hperm).
  - unfold Training.diabetes_training_params_split in Hs. rewrite HXy in Hs.
    exact (split_rows rng RandomState permutation X y _ (Some 0) global_rng s Hs Hperm).
Qed.

Lemma train_and_log_ends reg s :
  ends_in_order raises (train_and_log' reg s loading_only).
Proof.
  unfold ends_in_order.
  rewrite (train_and_log_unfold model fit predict predict_proba_1 roc_auc_score raises).
  cbv zeta.
  destruct (inverse reg) as [C|e];
    [|cbn; repeat split; try discriminate; try contradiction; auto].
  destruct (fit C (X_train s) (y_train s)) as [m|e];
    [|cbn; repeat split; try discriminate; try contradiction; auto].
  destruct (raises Predict) as [e|];
    [cbn; repeat split; try discriminate; try contradiction; auto|].
  destruct (raises PredictProba) as [e|];
    [cbn; repeat split; try discriminate; try contradiction; auto|].
  destruct (roc_auc_score _ _) as [auc|e];
    [|cbn; repeat split; try discriminate; try contradiction; auto].
  destruct (raises Makedirs) as [e|];
    [cbn; repeat split; try discriminate; try contradiction; auto|].
  destruct (raises Dump) as [e|];
    [cbn; repeat split; try discriminate; try contradiction; auto|].
  destruct (raises Complete) as [e|];
    cbn; repeat split; try discriminate; try contradiction; auto.
Qed.

Lemma script_ends reg csv g :
  ends_in_order raises
    ((let! s := lift (plain_split csv g) in train_and_log' reg s) loading_only).
Proof.
  unfold bind at 1. unfold lift.
  destruct (plain_split csv g) as [s|e]; [apply train_and_log_ends|].
  unfold ends_in_order. cbn. repeat split; try discriminate; try contradiction; auto.
Qed.

(** X14: for both scripts, every regularization rate and every behaviour
    of the library calls, the last steps keep their order: a script that
    returns has written exactly outputs/diabetes_model.pkl and completed its
    run; a completed run has the model file; the model file is written only
    after the three metrics were logged; and unless [joblib.dump] or
    [run.complete] themselves raise, a script that an exception ends has
    written no file and has not completed the run. *)
Theorem model_is_dumped_at_the_end_only (reg_rate : option spec_float)
    (csv : result frame) (global_rng : rng) :
  ends_in_order raises (parameterized reg_rate csv global_rng new_run) /\
  ends_in_order raises (plain csv global_rng new_run).
Proof.
  split.
  - destruct reg_rate; apply script_ends.
  - apply script_ends.
Qed.


(** X16: with [--reg_rate 0] (or -0.0) the parameterized script raises
    ZeroDivisionError at [C=1/reg], after the data were split and the rate
    was printed and logged: 'Regularization Rate' is the only metric of the
    run, no model is written. *)
Theorem zero_rate_raises_after_logging_it (rate : spec_float) (csv : result frame)
    (global_rng : rng) (s : split) :
  Float64.eqb rate (Float64.of_Z 0) = true ->
  parameterized_split csv global_rng = Ok s ->
  parameterized (Some rate) csv global_rng new_run
  = (Raise ZeroDivisionError,
     {| metrics := [("Regularization Rate", Py.PyFloat rate)];
        stdout := [[say "Loading Data..."];
                   [say "Training a logistic regression model with regularization rate of";
                    Scoring.ShowVal (Py.PyFloat rate)]];
        outputs := []; completed := false |}).
Proof.
  intros Hzero Hs.
  unfold Training.diabetes_training_params, bind at 1.
  unfold print at 1, modify at 1, bind at 1, lift at 1. rewrite Hs.
  rewrite (train_and_log_unfold model fit predict predict_proba_1 roc_auc_score raises).
  cbv zeta. unfold inverse. rewrite Hzero. reflexivity.
Qed.

End TrainingEdges.

Lemma split_uses_every_row_once_witness :
  exists X y s,
    Training.features_and_labels Training.sample_diabetes = Ok (X, y) /\
    Training.diabetes_training_split unit (fun _ => tt) (fun _ n => seq 0 n)
      (Ok Training.sample_diabetes) tt = Ok s /\
    zip (Training.X_test s) (Training.y_test s)
      ++ zip (Training.X_train s) (Training.y_train s) ≡ₚ zip X y.
Proof.
  eexists _, _, _.
  split; [vm_compute; reflexivity|]. split; [vm_compute; reflexivity|].
  apply (split_uses_every_row_once unit (fun _ => tt) (fun _ n => seq 0 n)
           Training.sample_diabetes tt).
  - vm_compute. reflexivity.
  - reflexivity.
  - left. vm_compute. reflexivity.
Defined.


Lemma zero_rate_raises_after_logging_it_witness :
  Training.diabetes_training_params unit (fun _ => tt) (fun _ n => seq 0 n) unit
    (fun _ _ _ => Ok tt) (fun _ _ => Training.SInt 0) (fun _ _ => Float64.literal 1 2)
    (fun _ _ => Ok (Float64.literal 1 2)) (fun _ => None)
    (Some (Float64.of_Z 0)) (Ok Training.sample_diabetes) tt
    Training.new_run
  = (Raise ZeroDivisionError,
     {| Training.metrics := [("Regularization Rate", Py.PyFloat (Float64.of_Z 0))];
        Training.stdout :=
          [[Training.say "Loading Data..."];
           [Training.say "Training a logistic regression model with regularization rate of";
            Scoring.ShowVal (Py.PyFloat (Float64.of_Z 0))]];
        Training.outputs := []; Training.completed := false |}).
Proof.
  eapply (zero_rate_raises_after_logging_it unit (fun _ => tt) (fun _ n => seq 0 n) unit
            (fun _ _ _ => Ok tt) (fun _ _ => Training.SInt 0) (fun _ _ => Float64.literal 1 2)
            (fun _ _ => Ok (Float64.literal 1 2)) (fun _ => None)
            (Float64.of_Z 0) (Ok Training.sample_diabetes) tt).
  - vm_compute. reflexivity.
  - vm_compute. reflexivity.
Defined.

(** ** The sizes of a split *)

Section SizesOfASplit.
Import Pandas Training SplitSizes Examples.

Lemma zrange_In a count : forall start,
  start <= a < start + Z.of_nat count -> In a (zrange start count).
Proof.
  induction count as [|count IH]; intros start Ha; [lia|].
  cbn [zrange]. destruct (Z.eq_dec start a) as [->|Hne]; [left; reflexivity|].
  right. apply IH. lia.
Qed.

Lemma test_rows_table :
  forallb (test_rows_ok (Float64.literal 30 100)) (zrange 0 (Z.to_nat 20000)) = true.
Proof. vm_compute. reflexivity. Qed.

Lemma test_rows_ceil n :
  0 <= n < 20000 ->
  Float64.ceil (Float64.mul (Float64.literal 30 100) (Float64.of_Z n))
  = Some ((3 * n + 9) / 10).
Proof.
  intros Hn. pose proof test_rows_table as T. rewrite forallb_forall in T.
  assert (In n (zrange 0 (Z.to_nat 20000))) as Hin by (apply zrange_In; lia).
  apply T in Hin. unfold test_rows_ok in Hin.
  destruct (Float64.ceil _) as [k|]; [|discriminate]. f_equal. lia.
Qed.

Lemma take_rows_defined {A} (a : list A) (indices : list nat) :
  Forall (fun i => (i < length a)%nat) indices ->
  exists xs, take_rows a indices = Ok xs.
Proof.
  induction 1 as [|i indices Hi _ [xs IH]]; [exists []; reflexivity|].
  cbn [take_rows]. destruct (lookup_lt_is_Some_2 a i Hi) as [x ->]. rewrite IH. eauto.
Qed.

Variable rng : Type.
Variable RandomState : Z -> rng.
Variable permutation : rng -> nat -> list nat.
(** X17: on a file of 2 to 19999 rows whose columns have one length, when
    [permutation] returns a permutation of the row numbers, the split of
    either script returns: it tests on the least whole number of rows not
    below three tenths of the rows ([ceil(0.30 * n)] in binary64) and
    trains on all the others. *)
Theorem split_tests_on_three_tenths (diabetes : frame) (global_rng : rng)
    (X : list (list scalar)) (y : list scalar) :
  features_and_labels diabetes = Ok (X, y) ->
  length y = length X ->
  2 <= Z.of_nat (length X) < 20000 ->
  permutation (RandomState 0) (length X) ≡ₚ seq 0 (length X) ->
  exists s,
    diabetes_training_split rng RandomState permutation (Ok diabetes) global_rng = Ok s /\
    diabetes_training_params_split rng RandomState permutation (Ok diabetes) global_rng
    = Ok s /\
    Z.of_nat (length (X_test s)) = (3 * Z.of_nat (length X) + 9) / 10 /\
    (length (X_test s) + length (X_train s) = length X)%nat /\
    length (y_test s) = length (X_test s) /\
    length (y_train s) = length (X_train s).
Proof.
  intros HXy Hlen Hn Hperm.
  unfold Training.diabetes_training_split, Training.diabetes_training_params_split.
  rewrite HXy. unfold Training.train_test_split.
  rewrite Hlen, Nat.eqb_refl. cbn [negb].
  replace (SFleb (Float64.literal 30 100) (Float64.of_Z 0)
           || SFleb (Float64.of_Z 1) (Float64.literal 30 100)) with false
    by (vm_compute; reflexivity).
  rewrite (test_rows_ceil (Z.of_nat (length X))) by lia.
  set (n := length X) in Hlen, Hn, Hperm |- *.
  set (n_test := Z.to_nat ((3 * Z.of_nat n + 9) / 10)).
  assert (Z.of_nat n_test = (3 * Z.of_nat n + 9) / 10) as Htest.
  { subst n_test. rewrite Z2Nat.id; [reflexivity|].
    Z.to_euclidean_division_equations. lia. }
  assert (1 <= n_test < n)%nat as Hbounds.
  { enough (1 <= Z.of_nat n_test < Z.of_nat n) by lia.
    rewrite Htest. Z.to_euclidean_division_equations. lia. }
  destruct (n - n_test =? 0)%nat eqn:Htrain; [apply Nat.eqb_eq in Htrain; lia|].
  cbn [check_random_state].
  set (indices := permutation (RandomState 0) n) in Hperm |- *.
  assert (length indices = n) as Hind
    by (rewrite (Permutation_length Hperm); apply length_seq).
  assert (Forall (fun i => (i < n)%nat) indices) as Hlt.
  { apply Forall_forall. intros i Hi. rewrite Hperm in Hi.
    apply elem_of_seq in Hi. lia. }
  assert (forall l : list nat, l ⊆ indices -> Forall (fun i => (i < n)%nat) l) as Hsub.
  { intros l Hl. apply Forall_forall. intros i Hi.
    rewrite Forall_forall in Hlt. apply Hlt, Hl, Hi. }
  assert (take n_test indices ⊆ indices) as S1 by apply subseteq_take.
  assert (take (n - n_test) (drop n_test indices) ⊆ indices) as S2.
  { etrans; [apply subseteq_take|apply subseteq_drop]. }
  destruct (take_rows_defined X _ (Hsub _ S2)) as [Xtr HXtr].
  destruct (take_rows_defined X _ (Hsub _ S1)) as [Xte HXte].
  destruct (take_rows_defined y (take (n - n_test) (drop n_test indices)))
    as [ytr Hytr]; [rewrite Hlen; apply Hsub, S2|].
  destruct (take_rows_defined y (take n_test indices))
    as [yte Hyte]; [rewrite Hlen; apply Hsub, S1|].
  rewrite HXtr, HXte, Hytr, Hyte.
  eexists. split; [reflexivity|]. split; [reflexivity|]. cbn [X_test X_train y_test y_train].
  apply take_rows_length in HXtr, HXte, Hytr, Hyte.
  rewrite HXtr, HXte, Hytr, Hyte, !length_take, length_drop, Hind.
  repeat split; lia.
Qed.

Variable model : Type.
Variable fit : spec_float -> list (list scalar) -> list scalar -> result model.
Variable predict : model -> list scalar -> scalar.
Variable predict_proba_1 : model -> list scalar -> spec_float.
Variable roc_auc_score : list scalar -> list spec_float -> result spec_float.
Variable raises : call -> option exn.

(** X18: on a file with no row or with one row both scripts raise
    ValueError at the split (no row would be left to train on), having
    printed 'Loading Data...' only: nothing is logged, no file is written,
    the run is not completed. *)
Theorem too_few_rows_raise (reg_rate : option spec_float) (diabetes : frame)
    (global_rng : rng) (X : list (list scalar)) (y : list scalar) :
  features_and_labels diabetes = Ok (X, y) ->
  (length X <= 1)%nat ->
  exists msg,
    diabetes_training rng RandomState permutation model fit predict predict_proba_1
      roc_auc_score raises (Ok diabetes) global_rng new_run
    = (Raise (ValueError msg), loading_only) /\
    diabetes_training_params rng RandomState permutation model fit predict predict_proba_1
      roc_auc_score raises reg_rate (Ok diabetes) global_rng new_run
    = (Raise (ValueError msg), loading_only).
Proof.
  intros HXy Hn.
  assert (exists msg, train_test_split rng RandomState permutation X y
                        (Float64.literal 30 100) (Some 0) global_rng
                      = Raise (ValueError msg)) as [msg Hsplit].
  { unfold Training.train_test_split.
    destruct (negb _); [eauto|].
    replace (SFleb (Float64.literal 30 100) (Float64.of_Z 0)
             || SFleb (Float64.of_Z 1) (Float64.literal 30 100)) with false
      by (vm_compute; reflexivity).
    rewrite (test_rows_ceil (Z.of_nat (length X))) by lia.
    destruct (length X) as [|[|n]]; [| |lia]; vm_compute; eauto. }
  exists msg.
  unfold Training.diabetes_training, Training.diabetes_training_params,
    Training.diabetes_training_split, Training.diabetes_training_params_split,
    bind, print, modify, lift, new_run, loading_only. simpl.
  rewrite HXy, Hsplit. auto.
Qed.

End SizesOfASplit.

Lemma split_tests_on_three_tenths_witness :
  exists X y,
    Training.features_and_labels Training.sample_diabetes = Ok (X, y) /\
    exists s,
      Training.diabetes_training_split unit (fun _ => tt) (fun _ n => seq 0 n)
        (Ok Training.sample_diabetes) tt = Ok s /\
      Training.diabetes_training_params_split unit (fun _ => tt) (fun _ n => seq 0 n)
        (Ok Training.sample_diabetes) tt = Ok s /\
      Z.of_nat (length (Training.X_test s)) = (3 * Z.of_nat (length X) + 9) / 10 /\
      (length (Training.X_test s) + length (Training.X_train s) = length X)%nat /\
      length (Training.y_test s) = length (Training.X_test s) /\
      length (Training.y_train s) = length (Training.X_train s).
Proof.
  eexists _, _. split; [vm_compute; reflexivity|].
  eapply (split_tests_on_three_tenths unit (fun _ => tt) (fun _ n => seq 0 n)
            Training.sample_diabetes tt).
  - vm_compute. reflexivity.
  - reflexivity.
  - simpl. lia.
  - reflexivity.
Defined.

Lemma too_few_rows_raise_witness :
  exists msg,
    Training.sample_training (Ok Examples.sample_one_patient) Training.new_run
    = (Raise (ValueError msg), Examples.loading_only) /\
    Training.diabetes_training_params unit (fun _ => tt) (fun _ n => seq 0 n) unit
      (fun _ _ _ => Ok tt) (fun _ _ => Training.SInt 0) (fun _ _ => Float64.literal 1 2)
      (fun _ _ => Ok (Float64.literal 1 2)) (fun _ => None) None
      (Ok Examples.sample_one_patient) tt Training.new_run
    = (Raise (ValueError msg), Examples.loading_only).
Proof.
  eapply (too_few_rows_raise unit (fun _ => tt) (fun _ n => seq 0 n) unit
            (fun _ _ _ => Ok tt) (fun _ _ => Training.SInt 0) (fun _ _ => Float64.literal 1 2)
            (fun _ _ => Ok (Float64.literal 1 2)) (fun _ => None) None
            Examples.sample_one_patient tt).
  - vm_compute. reflexivity.
  - simpl. lia.
Defined.
